(** * zerolog-sentry: the writer that turns zerolog records into Sentry events

    A shallow embedding of [writer.go] (package [zlogsentry]) and the
    properties of its specification.

    Conventions.
    - A Go [string] and a Go [[]byte] are a [string]; [len] is [String.length].
    - A Go [int] is a [Z]; [zerolog.Level] (an [int8]) is a [Z] as well.
    - A Go [error] is an [option string]: [None] is [nil].
    - A Go map used as a set ([map[zerolog.Level]struct{}]) is a [gset];
      the other maps are [gmap]s.
    - A run-time panic (nil dereference, index out of range) is the
      [Panicked] outcome of the [run] monad.
    - The calls made on the Sentry hub are recorded, in order, in a log
      that [Write], [WriteLevel] and [Close] extend. *)

From Stdlib Require Import ZArith Ascii String List Lia.
From stdpp Require Import base option list gmap strings.

Local Open Scope string_scope.
Local Open Scope list_scope.
Local Open Scope Z_scope.

(** ** Go basics *)

Definition error := option string.
Definition Duration := Z.
Definition Time := Z.

Inductive PanicKind :=
| NilDereference
| IndexOutOfRange
| SliceOutOfRange.

Inductive run (A : Type) :=
| Done (a : A)
| Panicked (p : PanicKind).
Arguments Done {A} a.
Arguments Panicked {A} p.

#[global] Instance run_ret : MRet run := fun A a => Done a.
#[global] Instance run_bind : MBind run := fun A B k m =>
  match m with
  | Done a => k a
  | Panicked p => Panicked p
  end.

(** [s[i]] on a slice: panics outside [0 <= i < len(s)]. *)
Definition index {A} (s : list A) (i : Z) : run A :=
  if i <? 0 then Panicked IndexOutOfRange
  else match s !! Z.to_nat i with
       | Some a => Done a
       | None => Panicked IndexOutOfRange
       end.

(** [s[:hi]]: panics outside [0 <= hi <= len(s)] (Go allows [hi] up to the
    capacity; the length is the stricter bound). *)
Definition slice_to {A} (s : list A) (hi : Z) : run (list A) :=
  if (hi <? 0) || (Z.of_nat (length s) <? hi) then Panicked SliceOutOfRange
  else Done (take (Z.to_nat hi) s).

(** ** zerolog and sentry-go declarations used by the writer *)

(** The levels and their numbers, and the default field names, of zerolog
    v1.29.1; the levels, severities and structures of sentry-go v0.21.0
    that the writer reads or writes. [Module_], [Type_], [Stacktrace_],
    [Exception_], [User_] and [Level_] stand for the Go fields [Module],
    [Type], [Stacktrace], [Exception], [User] and [Level]. *)

Module zerolog.
Definition Level := Z.
Definition DebugLevel : Level := 0.
Definition InfoLevel : Level := 1.
Definition WarnLevel : Level := 2.
Definition ErrorLevel : Level := 3.
Definition FatalLevel : Level := 4.
Definition PanicLevel : Level := 5.
Definition NoLevel : Level := 6.
Definition Disabled : Level := 7.
Definition TraceLevel : Level := -1.

Definition LevelFieldName := "level".
Definition MessageFieldName := "message".
Definition ErrorFieldName := "error".
Definition TimestampFieldName := "time".
End zerolog.

Module sentry.
Definition Level := string.
Definition LevelDebug : Level := "debug".
Definition LevelInfo : Level := "info".
Definition LevelWarning : Level := "warning".
Definition LevelError : Level := "error".
Definition LevelFatal : Level := "fatal".

Record Frame := {
  Function : string;
  Module_ : string;
  Filename : string;
  Lineno : Z;
}.

(** [Frames] are ordered from the oldest call to the most recent one. *)
Record Stacktrace := { Frames : list Frame }.

Record Exception := {
  Type_ : string;
  Value : string;
  Stacktrace_ : option Stacktrace;
}.

Record User := { ID : string }.

Record Event := {
  Timestamp : Time;
  Logger : string;
  Extra : gmap string string;
  Fingerprint : list string;
  Message : string;
  Exception_ : list Exception;
  User_ : User;
  Level_ : Level;
}.
End sentry.

(** The calls the writer makes on its hub. *)
Inductive HubCall :=
| CaptureEvent (event : sentry.Event)
| Flush (timeout : Duration).

(** What the imported packages answer; the writer is verified for every
    such answer.
    - [GetUnsafeString data key] and [GetString data key]: the value and
      the error of [jsonparser.GetUnsafeString] and [jsonparser.GetString].
    - [jsonparser.ObjectEach] is given by the key/value pairs it hands to
      its callback, in document order, and by the error it ends with
      ([None] when the object is well formed); the callback of this
      repository reads the key and the value only.
    - [ParseLevel]: [zerolog.ParseLevel].
    - [NewStacktrace]: the stack [sentry.NewStacktrace()] captures where
      [newStacktrace] calls it; the pointer it returns is not nil, since
      the capture starts at a frame that exists.
    - [sentry_Init]: the error of [sentry.Init] for a DSN.
    - [now]: the time [now()] returns.
    - [CaptureEvent_leaves event]: the event as [hub.CaptureEvent] leaves
      it. The hub gets the pointer, and the client works on the event in
      place (its defaults, the level of the scope, the [BeforeSend]
      callback), so the fields [Write] reads after the call are those of
      this event.
    The hub a [Writer] points to is the log of [HubCall]s the [Go] monad
    threads below. *)
Class Packages := {
  GetUnsafeString : string -> string -> string * error;
  GetString : string -> string -> string * error;
  ObjectEach_pairs : string -> list (string * string);
  ObjectEach_error : string -> error;
  ParseLevel : string -> zerolog.Level * error;
  NewStacktrace : sentry.Stacktrace;
  sentry_Init : string -> error;
  now : Time;
  CaptureEvent_leaves : sentry.Event -> sentry.Event;
}.

(** ** writer.go *)

Definition levelsMapping : gmap zerolog.Level sentry.Level :=
  list_to_map [
    (zerolog.DebugLevel, sentry.LevelDebug);
    (zerolog.InfoLevel, sentry.LevelInfo);
    (zerolog.WarnLevel, sentry.LevelWarning);
    (zerolog.ErrorLevel, sentry.LevelError);
    (zerolog.FatalLevel, sentry.LevelFatal);
    (zerolog.PanicLevel, sentry.LevelFatal)
  ].

(** [levelsMapping[lvl]]: the zero value of [sentry.Level] where the map
    has no entry. *)
Definition levelsMapping_at (lvl : zerolog.Level) : sentry.Level :=
  default "" (levelsMapping !! lvl).

Record Writer := {
  levels : gset zerolog.Level;
  flushTimeout : Duration;
}.

(** The path of this module, from [go.mod]. *)
Definition go_mod_module := "github.com/egordigitax/zerolog-sentry".

Module stacktrace.
(** The two constants of [newStacktrace]. *)
Definition module := "github.com/archdx/zerolog-sentry".
Definition loggerModule := "github.com/rs/zerolog".

(** [for ; threshold > 0 && st.Frames[threshold].Module == module; threshold--]
    entered with [threshold = k], for [k > 0] or after an iteration;
    the result is the threshold the loop ends with. *)
Fixpoint dropModuleFrames (frames : list sentry.Frame) (k : nat) : run Z :=
  match k with
  | O => mret 0
  | S k' =>
      f ← index frames (Z.of_nat k);
      if String.eqb (sentry.Module_ f) module
      then dropModuleFrames frames k'
      else mret (Z.of_nat k)
  end.

(** [for j := i - 1; j >= 0; j--] entered with [j = n - 1]: [Some j] when
    it leaves through [break outer] with [threshold = j]. *)
Fixpoint callerBelow (frames : list sentry.Frame) (n : nat) : run (option Z) :=
  match n with
  | O => mret None
  | S j =>
      f ← index frames (Z.of_nat j);
      if negb (String.eqb (sentry.Module_ f) loggerModule)
      then mret (Some (Z.of_nat j))
      else callerBelow frames j
  end.

(** [for i := threshold; i > 0; i--] entered with [i = k]. *)
Fixpoint dropLoggerFrames (frames : list sentry.Frame) (k : nat) (threshold : Z) : run Z :=
  match k with
  | O => mret threshold
  | S k' =>
      f ← index frames (Z.of_nat k);
      if String.eqb (sentry.Module_ f) loggerModule
      then
        r ← callerBelow frames k;
        match r with
        | Some j => mret j
        | None => mret threshold
        end
      else dropLoggerFrames frames k' threshold
  end.

(** The threshold after the first loop: the loop is not entered, and
    leaves [threshold] as it is, unless [threshold > 0]. *)
Definition step1 (frames : list sentry.Frame) : run Z :=
  let threshold := Z.of_nat (length frames) - 1 in
  if threshold >? 0
  then dropModuleFrames frames (Z.to_nat threshold)
  else mret threshold.

(** [newStacktrace], on the stack [sentry.NewStacktrace()] captured. *)
Definition newStacktrace_of (st : sentry.Stacktrace) : run sentry.Stacktrace :=
  threshold ← step1 (sentry.Frames st);
  threshold ← dropLoggerFrames (sentry.Frames st) (Z.to_nat threshold) threshold;
  frames ← slice_to (sentry.Frames st) (threshold + 1);
  mret {| sentry.Frames := frames |}.
End stacktrace.

(** Calls on the hub: the writer's methods run over the log of the calls
    made so far. *)
Definition Go (A : Type) := list HubCall -> run A * list HubCall.

#[global] Instance Go_ret : MRet Go := fun A a hub => (Done a, hub).
#[global] Instance Go_bind : MBind Go := fun A B k m hub =>
  match m hub with
  | (Done a, hub') => k a hub'
  | (Panicked p, hub') => (Panicked p, hub')
  end.

Definition lift {A} (r : run A) : Go A := fun hub => (r, hub).
(** [hub.CaptureEvent(event)]: the call is logged with the event as it is
    handed over, and the result is the event as the hub leaves it behind
    the pointer. *)
Definition hub_CaptureEvent `{Packages} (event : sentry.Event) : Go sentry.Event :=
  fun hub => (Done (CaptureEvent_leaves event), hub ++ [CaptureEvent event]).
Definition hub_Flush (timeout : Duration) : Go unit :=
  fun hub => (Done tt, hub ++ [Flush timeout]).

(** Reading through a pointer that may be [nil]. *)
Definition deref {A} (p : option A) : run A :=
  match p with
  | Some a => Done a
  | None => Panicked NilDereference
  end.

Definition set_Fingerprint (fp : list string) (e : sentry.Event) : sentry.Event :=
  {| sentry.Timestamp := sentry.Timestamp e; sentry.Logger := sentry.Logger e;
     sentry.Extra := sentry.Extra e; sentry.Fingerprint := fp;
     sentry.Message := sentry.Message e; sentry.Exception_ := sentry.Exception_ e;
     sentry.User_ := sentry.User_ e; sentry.Level_ := sentry.Level_ e |}.

Definition set_Extra (x : gmap string string) (e : sentry.Event) : sentry.Event :=
  {| sentry.Timestamp := sentry.Timestamp e; sentry.Logger := sentry.Logger e;
     sentry.Extra := x; sentry.Fingerprint := sentry.Fingerprint e;
     sentry.Message := sentry.Message e; sentry.Exception_ := sentry.Exception_ e;
     sentry.User_ := sentry.User_ e; sentry.Level_ := sentry.Level_ e |}.

Definition set_Message (m : string) (e : sentry.Event) : sentry.Event :=
  {| sentry.Timestamp := sentry.Timestamp e; sentry.Logger := sentry.Logger e;
     sentry.Extra := sentry.Extra e; sentry.Fingerprint := sentry.Fingerprint e;
     sentry.Message := m; sentry.Exception_ := sentry.Exception_ e;
     sentry.User_ := sentry.User_ e; sentry.Level_ := sentry.Level_ e |}.

Definition set_Exception (x : list sentry.Exception) (e : sentry.Event) : sentry.Event :=
  {| sentry.Timestamp := sentry.Timestamp e; sentry.Logger := sentry.Logger e;
     sentry.Extra := sentry.Extra e; sentry.Fingerprint := sentry.Fingerprint e;
     sentry.Message := sentry.Message e; sentry.Exception_ := x;
     sentry.User_ := sentry.User_ e; sentry.Level_ := sentry.Level_ e |}.

Definition set_User_ID (id : string) (e : sentry.Event) : sentry.Event :=
  {| sentry.Timestamp := sentry.Timestamp e; sentry.Logger := sentry.Logger e;
     sentry.Extra := sentry.Extra e; sentry.Fingerprint := sentry.Fingerprint e;
     sentry.Message := sentry.Message e; sentry.Exception_ := sentry.Exception_ e;
     sentry.User_ := {| sentry.ID := id |}; sentry.Level_ := sentry.Level_ e |}.

Definition set_Level (l : sentry.Level) (e : sentry.Event) : sentry.Event :=
  {| sentry.Timestamp := sentry.Timestamp e; sentry.Logger := sentry.Logger e;
     sentry.Extra := sentry.Extra e; sentry.Fingerprint := sentry.Fingerprint e;
     sentry.Message := sentry.Message e; sentry.Exception_ := sentry.Exception_ e;
     sentry.User_ := sentry.User_ e; sentry.Level_ := l |}.

Definition set_Type (t : string) (x : sentry.Exception) : sentry.Exception :=
  {| sentry.Type_ := t; sentry.Value := sentry.Value x;
     sentry.Stacktrace_ := sentry.Stacktrace_ x |}.

(** The variables the callback of [parseLogEvent] closes over. *)
Record locals := {
  event : sentry.Event;
  message : string;
  exceptions : list sentry.Exception;
}.

Definition bytesToStrUnsafe (data : string) : string := data.

(** [jsonparser.ObjectEach]: the callback runs on each pair in turn and
    stops the iteration when it returns an error; otherwise the result is
    the error the parser ends with. *)
Fixpoint ObjectEach_from {S} (pairs : list (string * string)) (final : error)
    (callback : S -> string -> string -> run (S * error)) (s : S) : run (S * error) :=
  match pairs with
  | [] => mret (s, final)
  | (key, value) :: rest =>
      r ← callback s key value;
      match r with
      | (s', Some e) => mret (s', Some e)
      | (s', None) => ObjectEach_from rest final callback s'
      end
  end.

Section writer.
Context `{Packages}.

Definition ObjectEach {S} (data : string)
    (callback : S -> string -> string -> run (S * error)) (s : S) : run (S * error) :=
  ObjectEach_from (ObjectEach_pairs data) (ObjectEach_error data) callback s.

Definition newStacktrace : run sentry.Stacktrace :=
  stacktrace.newStacktrace_of NewStacktrace.

(** parses the log level from the encoded log *)
Definition parseLogLevel (data : string) : zerolog.Level * error :=
  match GetUnsafeString data zerolog.LevelFieldName with
  | (_, Some _) => (zerolog.Disabled, None)
  | (lvlStr, None) => ParseLevel lvlStr
  end.

(** The function literal handed to [ObjectEach] in [parseLogEvent]. *)
Definition eachField (s : locals) (key value : string) : run (locals * error) :=
  let val := bytesToStrUnsafe value in
  if String.eqb key zerolog.MessageFieldName then
    mret ({| event := set_Fingerprint (sentry.Fingerprint (event s) ++ [val]) (event s);
             message := val;
             exceptions := exceptions s |}, None)
  else if String.eqb key zerolog.ErrorFieldName then
    st ← newStacktrace;
    let exc := {| sentry.Type_ := ""; sentry.Value := val; sentry.Stacktrace_ := Some st |} in
    mret ({| event := set_Fingerprint (sentry.Fingerprint (event s) ++ [val]) (event s);
             message := message s;
             exceptions := exceptions s ++ [exc] |}, None)
  else if String.eqb key zerolog.LevelFieldName || String.eqb key zerolog.TimestampFieldName then
    mret (s, None)
  else if String.eqb key "user_id" then
    let e := if String.eqb (sentry.ID (sentry.User_ (event s))) ""
             then set_User_ID val (event s) else event s in
    mret ({| event := set_Extra (<["user_id" := val]> (sentry.Extra e)) e;
             message := message s;
             exceptions := exceptions s |}, None)
  else
    mret ({| event := set_Extra (<[key := val]> (sentry.Extra (event s))) (event s);
             message := message s;
             exceptions := exceptions s |}, None).

(** parses the event except the log level; the result is the pointer
    ([None] is [nil]) and the flag. *)
Definition parseLogEvent (data : string) : run (option sentry.Event * bool) :=
  let logger := "zerolog" in
  let event0 :=
    {| sentry.Timestamp := now; sentry.Logger := logger; sentry.Extra := ∅;
       sentry.Fingerprint := []; sentry.Message := ""; sentry.Exception_ := [];
       sentry.User_ := {| sentry.ID := "" |}; sentry.Level_ := "" |} in
  r ← ObjectEach data eachField {| event := event0; message := ""; exceptions := [] |};
  match r with
  | (_, Some _) => mret (None, false)
  | (s, None) =>
      let ev :=
        match GetString data "fingerprint" with
        | (fingerprint, None) =>
            if negb (String.eqb fingerprint "")
            then set_Fingerprint [fingerprint] (event s)
            else event s
        | (_, Some _) => event s
        end in
      let ev := set_Message (message s) ev in
      let ev :=
        fold_left (fun e exc =>
                     set_Exception (sentry.Exception_ e ++ [set_Type (message s) exc]) e)
                  (exceptions s) ev in
      mret (Some ev, true)
  end.

(** Write handles zerolog's json and sends events to sentry. The level is
    assigned through the pointer [parseLogEvent] returned before [ok] is
    looked at, and the level that decides the flush is read through the
    same pointer after [hub.CaptureEvent] returned. *)
Definition Write (w : Writer) (data : string) : Go (Z * error) :=
  let n := Z.of_nat (String.length data) in
  let '(lvl, err) := parseLogLevel data in
  match err with
  | Some _ => mret (n, None)
  | None =>
      if negb (bool_decide (lvl ∈ levels w)) then mret (n, err)
      else
        r ← lift (parseLogEvent data);
        let '(p, ok) := r in
        ev ← lift (deref p);
        let ev := set_Level (levelsMapping_at lvl) ev in
        _ ← (if ok : bool then
               ev ← hub_CaptureEvent ev;
               if String.eqb (sentry.Level_ ev) sentry.LevelFatal
               then hub_Flush (flushTimeout w)
               else mret tt
             else mret tt);
        mret (n, err)
  end.

(** implements zerolog.LevelWriter *)
Definition WriteLevel (w : Writer) (level : zerolog.Level) (p : string) : Go (Z * error) :=
  let n := Z.of_nat (String.length p) in
  if negb (bool_decide (level ∈ levels w)) then mret (n, None)
  else
    r ← lift (parseLogEvent p);
    let '(q, ok) := r in
    ev ← lift (deref q);
    let ev := set_Level (levelsMapping_at level) ev in
    _ ← (if ok : bool then
           ev ← hub_CaptureEvent ev;
           if String.eqb (sentry.Level_ ev) sentry.LevelFatal
           then hub_Flush (flushTimeout w)
           else mret tt
         else mret tt);
    mret (n, None).

End writer.

(** The fields of [config] that reach the [Writer]; the others are handed
    to [sentry.Init]. *)
Record config := {
  cfg_levels : list zerolog.Level;
  cfg_flushTimeout : Duration;
}.

Definition WriterOption := config -> config.

Definition second : Duration := 1000000000.

Definition newDefaultConfig : config :=
  {| cfg_levels := [zerolog.ErrorLevel; zerolog.FatalLevel; zerolog.PanicLevel];
     cfg_flushTimeout := 3 * second |}.

(** WithLevels configures zerolog levels that have to be sent to Sentry. *)
Definition WithLevels (lvls : list zerolog.Level) : WriterOption :=
  fun cfg => {| cfg_levels := lvls; cfg_flushTimeout := cfg_flushTimeout cfg |}.

(** New creates writer with provided DSN and options. *)
Definition New `{Packages} (dsn : string) (opts : list WriterOption) : option Writer * error :=
  let cfg := fold_left (fun cfg opt => opt cfg) opts newDefaultConfig in
  match sentry_Init dsn with
  | Some e => (None, Some e)
  | None =>
      (Some {| levels := list_to_set (cfg_levels cfg);
               flushTimeout := cfg_flushTimeout cfg |}, None)
  end.

(** ** Sample records

    A reader for the flat records the examples use: one object whose keys
    and values are strings without escapes and without blanks between the
    tokens. On such a record [jsonparser] hands the same pairs to the
    callback, ends with an error exactly when the object is cut short, and
    finds a key exactly when it reads it before the cut. The samples are
    written with ['] where the record has a double quote. *)

Module sample.

Definition quote : Ascii.ascii := Ascii.ascii_of_nat 34.

Fixpoint record (s : string) : string :=
  match s with
  | EmptyString => EmptyString
  | String c rest =>
      String (if Ascii.eqb c "'"%char then quote else c) (record rest)
  end.

(** The text before the next double quote and the text after it. *)
Fixpoint stringEnd (s : string) : option (string * string) :=
  match s with
  | EmptyString => None
  | String c rest =>
      if Ascii.eqb c quote then Some (EmptyString, rest)
      else match stringEnd rest with
           | Some (text, after) => Some (String c text, after)
           | None => None
           end
  end.

(** One ["key":"value"] member and the text after it. *)
Definition member (s : string) : option (string * string * string) :=
  match s with
  | String c rest =>
      if Ascii.eqb c quote then
        match stringEnd rest with
        | Some (key, String ":" (String c' rest')) =>
            if Ascii.eqb c' quote then
              match stringEnd rest' with
              | Some (value, after) => Some (key, value, after)
              | None => None
              end
            else None
        | _ => None
        end
      else None
  | EmptyString => None
  end.

Definition malformed : error := Some "malformed".

(** The members from [s] on: the pairs read and the error the reading
    ends with. [fuel] bounds the number of members. *)
Fixpoint members (fuel : nat) (s : string) : list (string * string) * error :=
  match fuel with
  | O => ([], malformed)
  | S fuel' =>
      match member s with
      | None => ([], malformed)
      | Some (key, value, String "}" _) => ([(key, value)], None)
      | Some (key, value, String "," rest) =>
          let '(pairs, err) := members fuel' rest in
          ((key, value) :: pairs, err)
      | Some (key, value, _) => ([(key, value)], malformed)
      end
  end.

Definition object (data : string) : list (string * string) * error :=
  match data with
  | String "{" (String "}" _) => ([], None)
  | String "{" rest => members (String.length data) rest
  | _ => ([], malformed)
  end.

Definition get (data key : string) : string * error :=
  match List.find (fun kv => String.eqb (fst kv) key) (fst (object data)) with
  | Some (_, value) => (value, None)
  | None => ("", Some "Key path not found")
  end.

(** [zerolog.ParseLevel] on the level names zerolog writes. *)
Definition parseLevel (s : string) : zerolog.Level * error :=
  if String.eqb s "trace" then (zerolog.TraceLevel, None)
  else if String.eqb s "debug" then (zerolog.DebugLevel, None)
  else if String.eqb s "info" then (zerolog.InfoLevel, None)
  else if String.eqb s "warn" then (zerolog.WarnLevel, None)
  else if String.eqb s "error" then (zerolog.ErrorLevel, None)
  else if String.eqb s "fatal" then (zerolog.FatalLevel, None)
  else if String.eqb s "panic" then (zerolog.PanicLevel, None)
  else if String.eqb s "disabled" then (zerolog.Disabled, None)
  else if String.eqb s "" then (zerolog.NoLevel, None)
  else (zerolog.NoLevel, Some "Unknown Level String").

Definition frame (fn md file : string) (line : Z) : sentry.Frame :=
  {| sentry.Function := fn; sentry.Module_ := md;
     sentry.Filename := file; sentry.Lineno := line |}.

(** A stack as a log call from [main.handle] leaves it, oldest call first. *)
Definition stack : sentry.Stacktrace :=
  {| sentry.Frames := [
       frame "main" "main" "main.go" 12;
       frame "handle" "main" "main.go" 40;
       frame "(*Event).Msg" stacktrace.loggerModule "event.go" 108;
       frame "(*Event).msg" stacktrace.loggerModule "event.go" 158;
       frame "(*Writer).Write" go_mod_module "writer.go" 48;
       frame "(*Writer).parseLogEvent" go_mod_module "writer.go" 114;
       frame "newStacktrace" go_mod_module "writer.go" 161
     ] |}.

(** The sample packages around a hub. *)
Definition with_hub (leaves : sentry.Event -> sentry.Event) : Packages := {|
  GetUnsafeString := get;
  GetString := get;
  ObjectEach_pairs := fun data => fst (object data);
  ObjectEach_error := fun data => snd (object data);
  ParseLevel := parseLevel;
  NewStacktrace := stack;
  sentry_Init := fun _ => None;
  now := 1700000000;
  CaptureEvent_leaves := leaves;
|}.

(** A hub with the client's defaults and nothing else: an event without a
    level leaves it with the info level. *)
Definition client_defaults (ev : sentry.Event) : sentry.Event :=
  if String.eqb (sentry.Level_ ev) "" then set_Level sentry.LevelInfo ev else ev.


Definition packages : Packages := with_hub client_defaults.

Definition writer (lvls : list zerolog.Level) : Writer :=
  {| levels := list_to_set lvls; flushTimeout := 3 * second |}.

(** The writer [New] builds without options. *)
Definition default : Writer := writer (cfg_levels newDefaultConfig).

Definition dsn := "https://key@sentry.example/1".

(** A record cut short after its message. *)
Definition truncated := record "{'level':'error','message':'boom'".

(** Records with one message and two errors, the message after the first
    error and before both. *)
Definition error_first := record "{'level':'error','error':'E1','message':'M','error':'E2'}".
Definition message_first := record "{'level':'error','message':'M','error':'E1','error':'E2'}".

Definition with_fingerprint :=
  record "{'level':'error','message':'M','error':'E1','fingerprint':'F'}".
Definition without_level := record "{'message':'x'}".
Definition debug_record := record "{'level':'debug','message':'x'}".
Definition trace_record := record "{'level':'trace','message':'x'}".
Definition fatal_record := record "{'level':'fatal','message':'down'}".

(** A record with three "user_id" fields, the first one empty, and two
    "service" fields; one with an empty fingerprint; one with no message
    and no error; a panic record. *)
Definition tagged :=
  record "{'level':'error','user_id':'','user_id':'u1','service':'a','user_id':'u2','service':'b','message':'M'}".
Definition empty_fingerprint :=
  record "{'level':'error','message':'M','error':'E1','fingerprint':''}".
Definition plain := record "{'level':'info','service':'a'}".

(** A record with an empty "fingerprint" field before a second one. *)
Definition two_fingerprints :=
  record "{'level':'error','message':'M','fingerprint':'','fingerprint':'F'}".

(** A stack on which the logger's frames reach the root. *)
Definition logger_at_root : list sentry.Frame := [
  frame "(*Event).Msg" stacktrace.loggerModule "event.go" 108;
  frame "(*Event).msg" stacktrace.loggerModule "event.go" 158;
  frame "(*Writer).Write" go_mod_module "writer.go" 48 ].

End sample.

(** ** The fields of a record, as the properties name them *)

Definition is_message (key : string) : bool := String.eqb key zerolog.MessageFieldName.
Definition is_error (key : string) : bool := String.eqb key zerolog.ErrorFieldName.

(** The values of the message fields, in document order. *)
Definition messageValues (pairs : list (string * string)) : list string :=
  map snd (List.filter (fun kv => is_message (fst kv)) pairs).

(** The value of the last message field, the empty string without one. *)
Definition finalMessage (pairs : list (string * string)) : string :=
  List.last (messageValues pairs) "".

(** The values of the error fields, in document order. *)
Definition errorValues (pairs : list (string * string)) : list string :=
  map snd (List.filter (fun kv => is_error (fst kv)) pairs).

(** The values of the message and error fields, in document order. *)
Definition fingerprintValues (pairs : list (string * string)) : list string :=
  map snd (List.filter (fun kv => is_message (fst kv) || is_error (fst kv)) pairs).

Section record_fields.
Context `{Packages}.

(** The severity field is missing: [GetUnsafeString] finds no level. *)
Definition severity_missing (data : string) : Prop :=
  snd (GetUnsafeString data zerolog.LevelFieldName) <> None.

(** The severity field is there and [ParseLevel] refuses it. *)
Definition severity_unparseable (data : string) : Prop :=
  exists lvlStr, GetUnsafeString data zerolog.LevelFieldName = (lvlStr, None) /\
    snd (ParseLevel lvlStr) <> None.

(** The severity field is there and parses to [lvl]. *)
Definition severity_parsed (data : string) (lvl : zerolog.Level) : Prop :=
  exists lvlStr, GetUnsafeString data zerolog.LevelFieldName = (lvlStr, None) /\
    ParseLevel lvlStr = (lvl, None).

(** The fingerprint a well-formed record ends with: the explicit one when
    [GetString] finds a non-empty "fingerprint" string, the accumulated one
    otherwise. *)
Definition fingerprint_of (data : string) : list string :=
  match GetString data "fingerprint" with
  | (fingerprint, None) =>
      if negb (String.eqb fingerprint "") then [fingerprint]
      else fingerprintValues (ObjectEach_pairs data)
  | (_, Some _) => fingerprintValues (ObjectEach_pairs data)
  end.

End record_fields.

(** The calls a [Write] or [WriteLevel] that submits [ev] adds to the hub's
    log: the capture, and a flush when the event holds the fatal level as
    the hub leaves it. *)
Definition submission `{Packages} (w : Writer) (ev : sentry.Event) : list HubCall :=
  CaptureEvent ev ::
  (if String.eqb (sentry.Level_ (CaptureEvent_leaves ev)) sentry.LevelFatal
   then [Flush (flushTimeout w)] else []).


(** The keys the callback of [parseLogEvent] does not record in [Extra]. *)
Definition is_reserved (key : string) : bool :=
  is_message key || is_error key
  || String.eqb key zerolog.LevelFieldName
  || String.eqb key zerolog.TimestampFieldName.

(** The values of the fields named [key], in document order. *)
Definition valuesOf (key : string) (pairs : list (string * string)) : list string :=
  map snd (List.filter (fun kv => String.eqb (fst kv) key) pairs).

(** The first string of a list that is not empty, the empty string without
    one. *)
Definition firstNonEmpty (l : list string) : string :=
  default "" (List.find (fun v => negb (String.eqb v "")) l).

Definition set_Timestamp (t : Time) (e : sentry.Event) : sentry.Event :=
  {| sentry.Timestamp := t; sentry.Logger := sentry.Logger e;
     sentry.Extra := sentry.Extra e; sentry.Fingerprint := sentry.Fingerprint e;
     sentry.Message := sentry.Message e; sentry.Exception_ := sentry.Exception_ e;
     sentry.User_ := sentry.User_ e; sentry.Level_ := sentry.Level_ e |}.

(** The packages with another answer of [now()]. *)
Definition at_time (P : Packages) (t : Time) : Packages :=
  {| GetUnsafeString := @GetUnsafeString P;
     GetString := @GetString P;
     ObjectEach_pairs := @ObjectEach_pairs P;
     ObjectEach_error := @ObjectEach_error P;
     ParseLevel := @ParseLevel P;
     NewStacktrace := @NewStacktrace P;
     sentry_Init := @sentry_Init P;
     now := t;
     CaptureEvent_leaves := @CaptureEvent_leaves P |}.

(** The closure's variables with another timestamp in the event, and a
    hub call with another timestamp in its event. *)
Definition stamp (t : Time) (s : locals) : locals :=
  {| event := set_Timestamp t (event s);
     message := message s;
     exceptions := exceptions s |}.

Definition restamp (t : Time) (c : HubCall) : HubCall :=
  match c with
  | CaptureEvent ev => CaptureEvent (set_Timestamp t ev)
  | Flush timeout => Flush timeout
  end.

(** * Properties *)

(** ** Slices *)

Lemma index_lookup {A} (s : list A) (i : nat) (a : A) :
  s !! i = Some a -> index s (Z.of_nat i) = Done a.
Proof.
  intros Hi. unfold index.
  destruct (Z.ltb_spec (Z.of_nat i) 0) as [Hneg | _]; [lia |].
  now rewrite Nat2Z.id, Hi.
Qed.

Lemma index_in_range {A} (s : list A) (i : nat) :
  (i < length s)%nat -> exists a, s !! i = Some a /\ index s (Z.of_nat i) = Done a.
Proof.
  intros Hi. destruct (lookup_lt_is_Some_2 s i Hi) as [a Ha].
  exists a. split; [exact Ha | now apply index_lookup].
Qed.

Lemma slice_to_in_range {A} (s : list A) (hi : Z) :
  0 <= hi <= Z.of_nat (length s) -> slice_to s hi = Done (take (Z.to_nat hi) s).
Proof.
  intros [Hlo Hhi]. unfold slice_to.
  destruct (Z.ltb_spec hi 0); [lia |].
  destruct (Z.ltb_spec (Z.of_nat (length s)) hi); [lia | reflexivity].
Qed.

(** ** The stack trace pruner *)

Module stacktrace_facts.
Import stacktrace.

(** The first loop ends, inside the slice, on a threshold below which
    nothing was dropped and above which every frame is of [module]. *)
Lemma dropModuleFrames_spec (frames : list sentry.Frame) (k : nat) :
  (k < length frames)%nat ->
  exists t, dropModuleFrames frames k = Done t /\ 0 <= t <= Z.of_nat k /\
    (forall i f, t < Z.of_nat i <= Z.of_nat k -> frames !! i = Some f ->
                 sentry.Module_ f = module) /\
    (forall f, 0 < t -> frames !! Z.to_nat t = Some f -> sentry.Module_ f <> module).
Proof.
  induction k as [| k IH]; intros Hk.
  - exists 0. simpl. repeat split; try lia.
  - destruct (index_in_range frames (S k) Hk) as (f & Hf & Hidx).
    cbn [dropModuleFrames]. rewrite Hidx. cbn [mbind run_bind].
    destruct (String.eqb_spec (sentry.Module_ f) module) as [Heq | Hne].
    + destruct IH as (t & Ht & Hrange & Hdropped & Hkept); [lia |].
      exists t. split; [exact Ht |]. split; [lia |]. split; [| exact Hkept].
      intros i g Hi Hg.
      destruct (decide (i = S k)) as [-> | Hother].
      * rewrite Hf in Hg. now inversion Hg; subst.
      * apply (Hdropped i g); [lia | exact Hg].
    + exists (Z.of_nat (S k)). split; [reflexivity |]. split; [lia |]. split.
      * intros i g Hi _. lia.
      * intros g _ Hg. rewrite Nat2Z.id, Hf in Hg. now inversion Hg; subst.
Qed.

Lemma step1_spec (frames : list sentry.Frame) :
  exists t, step1 frames = Done t /\ -1 <= t < Z.of_nat (length frames) /\
    (frames <> [] -> 0 <= t) /\
    (forall i f, t < Z.of_nat i -> frames !! i = Some f -> sentry.Module_ f = module) /\
    (forall f, 0 < t -> frames !! Z.to_nat t = Some f -> sentry.Module_ f <> module).
Proof.
  unfold step1.
  destruct (Z.gtb_spec (Z.of_nat (length frames) - 1) 0) as [Hpos | Hnot].
  - destruct (dropModuleFrames_spec frames (Z.to_nat (Z.of_nat (length frames) - 1)))
      as (t & Ht & Hrange & Hdropped & Hkept); [lia |].
    exists t. split; [exact Ht |]. split; [lia |]. split; [lia |]. split; [| exact Hkept].
    intros i f Hi Hf. apply (Hdropped i f); [| exact Hf].
    apply lookup_lt_Some in Hf. lia.
  - exists (Z.of_nat (length frames) - 1). split; [reflexivity |]. split; [lia |].
    split; [| split].
    + intros Hne. destruct frames; [congruence | simpl; lia].
    + intros i f Hi Hf. apply lookup_lt_Some in Hf. lia.
    + intros f Hpos. lia.
Qed.

Lemma callerBelow_spec (frames : list sentry.Frame) (n : nat) :
  (n <= length frames)%nat ->
  exists r, callerBelow frames n = Done r /\
    forall j, r = Some j -> 0 <= j < Z.of_nat n.
Proof.
  induction n as [| n IH]; intros Hn.
  - exists None. split; [reflexivity | discriminate].
  - destruct (index_in_range frames n) as (f & Hf & Hidx); [lia |].
    cbn [callerBelow]. rewrite Hidx. cbn [mbind run_bind].
    destruct (negb (String.eqb (sentry.Module_ f) loggerModule)).
    + exists (Some (Z.of_nat n)). split; [reflexivity |].
      intros j Hj. inversion Hj. lia.
    + destruct IH as (r & Hr & Hrange); [lia |].
      exists r. split; [exact Hr |]. intros j Hj. specialize (Hrange j Hj). lia.
Qed.

Lemma dropLoggerFrames_spec (frames : list sentry.Frame) (k : nat) (threshold : Z) :
  (k = 0 \/ k < length frames)%nat ->
  exists t, dropLoggerFrames frames k threshold = Done t /\
    (t = threshold \/ 0 <= t < Z.of_nat k).
Proof.
  induction k as [| k IH]; intros Hk.
  - exists threshold. split; [reflexivity | now left].
  - destruct Hk as [Hk | Hk]; [discriminate |].
    destruct (index_in_range frames (S k) Hk) as (f & Hf & Hidx).
    cbn [dropLoggerFrames]. rewrite Hidx. cbn [mbind run_bind].
    destruct (String.eqb (sentry.Module_ f) loggerModule).
    + destruct (callerBelow_spec frames (S k)) as (r & Hr & Hrange); [lia |].
      rewrite Hr. cbn [mbind run_bind].
      destruct r as [j |].
      * exists j. split; [reflexivity |]. right. now apply Hrange.
      * exists threshold. split; [reflexivity | now left].
    + destruct IH as (t & Ht & Hrange); [lia |].
      exists t. split; [exact Ht |]. destruct Hrange; [now left | right; lia].
Qed.

(** The three steps together: a prefix of the captured frames. *)
Lemma newStacktrace_of_prefix (st : sentry.Stacktrace) :
  exists n, (n <= length (sentry.Frames st))%nat /\
    newStacktrace_of st = Done {| sentry.Frames := take n (sentry.Frames st) |}.
Proof.
  destruct st as [frames]. unfold newStacktrace_of. cbn [sentry.Frames].
  destruct (step1_spec frames) as (t1 & H1 & Hrange1 & _).
  rewrite H1. cbn [mbind run_bind].
  destruct (dropLoggerFrames_spec frames (Z.to_nat t1) t1)
    as (t2 & H2 & Hrange2); [lia |].
  rewrite H2. cbn [mbind run_bind].
  rewrite slice_to_in_range by lia. cbn [mbind run_bind mret run_ret].
  exists (Z.to_nat (t2 + 1)). split; [lia | reflexivity].
Qed.

(** One iteration of each loop, on a frame that is there. *)
Lemma dropModuleFrames_step (frames : list sentry.Frame) (k : nat) (f : sentry.Frame) :
  frames !! S k = Some f ->
  dropModuleFrames frames (S k)
  = if String.eqb (sentry.Module_ f) module
    then dropModuleFrames frames k
    else Done (Z.of_nat (S k)).
Proof.
  intros Hf. cbn [dropModuleFrames]. now rewrite (index_lookup _ _ _ Hf).
Qed.

Lemma callerBelow_step (frames : list sentry.Frame) (j : nat) (f : sentry.Frame) :
  frames !! j = Some f ->
  callerBelow frames (S j)
  = if negb (String.eqb (sentry.Module_ f) loggerModule)
    then Done (Some (Z.of_nat j))
    else callerBelow frames j.
Proof.
  intros Hf. cbn [callerBelow]. now rewrite (index_lookup _ _ _ Hf).
Qed.

Lemma dropLoggerFrames_step (frames : list sentry.Frame) (k : nat) (threshold : Z)
    (f : sentry.Frame) :
  frames !! S k = Some f ->
  dropLoggerFrames frames (S k) threshold
  = if String.eqb (sentry.Module_ f) loggerModule
    then r ← callerBelow frames (S k);
         match r with
         | Some j => Done j
         | None => Done threshold
         end
    else dropLoggerFrames frames k threshold.
Proof.
  intros Hf. cbn [dropLoggerFrames]. now rewrite (index_lookup _ _ _ Hf).
Qed.

End stacktrace_facts.

(** C9. [newStacktrace] never indexes or slices outside the captured
    frames: on every captured stack both loops and the final slicing run
    to the end and return a prefix of the captured frames; the empty stack
    gives the empty stack and a single frame is returned as it is. *)
Theorem newStacktrace_no_index_error :
  (forall st : sentry.Stacktrace,
     exists n, (n <= length (sentry.Frames st))%nat /\
       stacktrace.newStacktrace_of st
       = Done {| sentry.Frames := take n (sentry.Frames st) |}) /\
  stacktrace.newStacktrace_of {| sentry.Frames := [] |}
  = Done {| sentry.Frames := [] |} /\
  (forall f : sentry.Frame,
     stacktrace.newStacktrace_of {| sentry.Frames := [f] |}
     = Done {| sentry.Frames := [f] |}).
Proof.
  split; [exact stacktrace_facts.newStacktrace_of_prefix |].
  split; [reflexivity | intros f; reflexivity].
Qed.



(** C5. On a captured stack whose frames are, innermost first, two of the
    bridge's own module, two of the logger's module, the caller and main,
    [newStacktrace] returns the caller's and main's frames only. ([Frames]
    holds the oldest call first, so the slices are the reversed lists.) *)
Theorem newStacktrace_trims_bridge_and_logger (b1 b2 l1 l2 caller main : sentry.Frame) :
  sentry.Module_ b1 = go_mod_module ->
  sentry.Module_ b2 = go_mod_module ->
  sentry.Module_ l1 = stacktrace.loggerModule ->
  sentry.Module_ l2 = stacktrace.loggerModule ->
  sentry.Module_ caller <> stacktrace.loggerModule ->
  stacktrace.newStacktrace_of {| sentry.Frames := rev [b1; b2; l1; l2; caller; main] |}
  = Done {| sentry.Frames := rev [caller; main] |}.
Proof.
  intros Hb1 Hb2 Hl1 Hl2 Hc.
  apply String.eqb_neq in Hc.
  set (frames := rev [b1; b2; l1; l2; caller; main]).
  assert (Hstep1 : stacktrace.step1 frames = Done 5).
  { unfold stacktrace.step1.
    change (Z.of_nat (length frames) - 1 >? 0) with true.
    change (Z.to_nat (Z.of_nat (length frames) - 1)) with 5%nat.
    rewrite (stacktrace_facts.dropModuleFrames_step frames 4 b1 eq_refl), Hb1.
    reflexivity. }
  assert (Hstep2 : stacktrace.dropLoggerFrames frames 5 5 = Done 1).
  { rewrite (stacktrace_facts.dropLoggerFrames_step frames 4 5 b1 eq_refl), Hb1.
    change (String.eqb go_mod_module stacktrace.loggerModule) with false.
    rewrite (stacktrace_facts.dropLoggerFrames_step frames 3 5 b2 eq_refl), Hb2.
    change (String.eqb go_mod_module stacktrace.loggerModule) with false.
    rewrite (stacktrace_facts.dropLoggerFrames_step frames 2 5 l1 eq_refl), Hl1.
    rewrite String.eqb_refl.
    rewrite (stacktrace_facts.callerBelow_step frames 2 l2 eq_refl), Hl2.
    rewrite String.eqb_refl.
    rewrite (stacktrace_facts.callerBelow_step frames 1 caller eq_refl), Hc.
    reflexivity. }
  unfold stacktrace.newStacktrace_of. cbn [sentry.Frames]. fold frames.
  rewrite Hstep1. cbn [mbind run_bind].
  change (Z.to_nat 5) with 5%nat. rewrite Hstep2.
  reflexivity.
Qed.

(** ** The field extractor *)

Lemma last_cons {A} (a d : A) (l : list A) : List.last (a :: l) d = List.last l a.
Proof.
  revert a d. induction l as [| b l IH]; intros a d; [reflexivity |].
  change (List.last (a :: b :: l) d) with (List.last (b :: l) d).
  now rewrite (IH b d), (IH b a).
Qed.

Lemma is_message_not_error (key : string) : is_message key = true -> is_error key = false.
Proof.
  unfold is_error, is_message. intros Hk. apply String.eqb_eq in Hk. now subst.
Qed.

(** Appending the collected exceptions, each with its type set. *)
Lemma append_exceptions (msg : string) (excs : list sentry.Exception) (ev : sentry.Event) :
  let ev' := fold_left (fun e exc =>
                          set_Exception (sentry.Exception_ e ++ [set_Type msg exc]) e)
                       excs ev in
  sentry.Exception_ ev' = sentry.Exception_ ev ++ map (set_Type msg) excs /\
  sentry.Fingerprint ev' = sentry.Fingerprint ev /\
  sentry.Message ev' = sentry.Message ev /\
  sentry.Level_ ev' = sentry.Level_ ev.
Proof.
  revert ev. induction excs as [| exc excs IH]; intros ev; cbn [fold_left map].
  - now rewrite app_nil_r.
  - destruct (IH (set_Exception (sentry.Exception_ ev ++ [set_Type msg exc]) ev))
      as (Hx & Hf & Hm & Hl).
    cbn zeta in *. rewrite Hx, Hf, Hm, Hl. cbn [set_Exception sentry.Exception_
      sentry.Fingerprint sentry.Message sentry.Level_].
    now rewrite <- app_assoc.
Qed.

Section extractor.
Context `{Packages}.

(** The pruned stack every exception of a record carries. *)
Lemma newStacktrace_total : exists st, newStacktrace = Done st.
Proof.
  destruct (stacktrace_facts.newStacktrace_of_prefix NewStacktrace) as (n & _ & Hn).
  eexists. exact Hn.
Qed.

(** One call of the callback: it never asks to stop, and what it does to
    the closure's variables depends on the key alone. *)
Lemma eachField_step (s : locals) (key value : string) :
  exists s', eachField s key value = Done (s', None) /\
    sentry.Fingerprint (event s')
    = sentry.Fingerprint (event s)
      ++ (if is_message key || is_error key then [value] else []) /\
    message s' = (if is_message key then value else message s) /\
    map sentry.Value (exceptions s')
    = map sentry.Value (exceptions s) ++ (if is_error key then [value] else []) /\
    sentry.Exception_ (event s') = sentry.Exception_ (event s) /\
    sentry.Level_ (event s') = sentry.Level_ (event s).
Proof.
  destruct newStacktrace_total as [st Hst].
  unfold eachField. fold (is_message key). fold (is_error key).
  destruct (is_message key) eqn:Hm.
  - rewrite (is_message_not_error key Hm). eexists. split; [reflexivity |].
    cbn. now rewrite app_nil_r.
  - destruct (is_error key) eqn:He.
    + rewrite Hst. eexists. split; [reflexivity |].
      cbn. now rewrite map_app.
    + cbn [orb].
      destruct (String.eqb key zerolog.LevelFieldName
                || String.eqb key zerolog.TimestampFieldName).
      { exists s. now rewrite !app_nil_r. }
      destruct (String.eqb key "user_id").
      { eexists. split; [reflexivity |]. cbn [event message exceptions].
        rewrite !app_nil_r.
        destruct (String.eqb (sentry.ID (sentry.User_ (event s))) ""); now cbn. }
      eexists. split; [reflexivity |]. cbn. now rewrite !app_nil_r.
Qed.

(** What the pass over the pairs leaves in the closure's variables. *)
Lemma ObjectEach_from_eachField (pairs : list (string * string)) (final : error) (s : locals) :
  exists s', ObjectEach_from pairs final eachField s = Done (s', final) /\
    sentry.Fingerprint (event s') = sentry.Fingerprint (event s) ++ fingerprintValues pairs /\
    message s' = List.last (messageValues pairs) (message s) /\
    map sentry.Value (exceptions s') = map sentry.Value (exceptions s) ++ errorValues pairs /\
    sentry.Exception_ (event s') = sentry.Exception_ (event s) /\
    sentry.Level_ (event s') = sentry.Level_ (event s).
Proof.
  revert s. induction pairs as [| [key value] pairs IH]; intros s.
  - exists s. cbn. now rewrite !app_nil_r.
  - destruct (eachField_step s key value)
      as (s1 & Hstep & Hfp1 & Hmsg1 & Hexc1 & Hx1 & Hl1).
    destruct (IH s1) as (s' & Hrun & Hfp & Hmsg & Hexc & Hx & Hl).
    exists s'. split.
    { cbn [ObjectEach_from]. rewrite Hstep. cbn [mbind run_bind]. exact Hrun. }
    rewrite Hfp, Hmsg, Hexc, Hfp1, Hmsg1, Hexc1, Hx, Hl, Hx1, Hl1.
    unfold fingerprintValues, messageValues, errorValues.
    cbn [List.filter fst snd].
    destruct (is_message key) eqn:Hm.
    + rewrite (is_message_not_error key Hm).
      cbn [orb map snd]. now rewrite last_cons, <- app_assoc, app_nil_r.
    + destruct (is_error key); cbn [orb map snd]; now rewrite <- !app_assoc.
Qed.

(** A record whose object is cut short or otherwise malformed: no event. *)
Lemma parseLogEvent_malformed (data e : string) :
  ObjectEach_error data = Some e -> parseLogEvent data = Done (None, false).
Proof.
  intros Herr. unfold parseLogEvent, ObjectEach.
  edestruct ObjectEach_from_eachField as (s & Hrun & _). rewrite Hrun, Herr.
  reflexivity.
Qed.

(** A well-formed record: the event and its fields. *)
Lemma parseLogEvent_wellformed (data : string) :
  ObjectEach_error data = None ->
  exists ev, parseLogEvent data = Done (Some ev, true) /\
    sentry.Fingerprint ev = fingerprint_of data /\
    sentry.Message ev = finalMessage (ObjectEach_pairs data) /\
    map sentry.Value (sentry.Exception_ ev) = errorValues (ObjectEach_pairs data) /\
    Forall (fun exc => sentry.Type_ exc = finalMessage (ObjectEach_pairs data))
           (sentry.Exception_ ev) /\
    sentry.Level_ ev = "".
Proof.
  intros Herr. unfold parseLogEvent, ObjectEach.
  edestruct ObjectEach_from_eachField as (s & Hrun & Hfp & Hmsg & Hexc & Hx & Hl).
  rewrite Hrun, Herr. cbn [mbind run_bind mret run_ret].
  cbn [event message exceptions sentry.Fingerprint sentry.Exception_ sentry.Level_
       app map] in Hfp, Hmsg, Hexc, Hx, Hl.
  fold (finalMessage (ObjectEach_pairs data)) in Hmsg.
  match goal with
  | |- context [set_Message (message s) ?e] => set (ev1 := e)
  end.
  assert (H1 : sentry.Fingerprint ev1 = fingerprint_of data /\
               sentry.Exception_ ev1 = [] /\ sentry.Level_ ev1 = "").
  { unfold ev1, fingerprint_of.
    destruct (GetString data "fingerprint") as [fingerprint [e |]]; [easy |].
    destruct (negb (String.eqb fingerprint "")); easy. }
  destruct H1 as (Hfp1 & Hx1 & Hl1).
  destruct (append_exceptions (message s) (exceptions s) (set_Message (message s) ev1))
    as (Hxs & Hf & Hm & Hlv).
  cbn zeta in Hxs, Hf, Hm, Hlv.
  cbn [set_Message sentry.Exception_ sentry.Fingerprint sentry.Message sentry.Level_]
    in Hxs, Hf, Hm, Hlv.
  eexists. split; [reflexivity |].
  rewrite Hxs, Hf, Hm, Hlv, Hx1, Hfp1, Hl1, Hmsg. cbn [app].
  repeat split.
  - rewrite map_map. exact Hexc.
  - apply List.Forall_forall. intros exc Hin. apply in_map_iff in Hin.
    destruct Hin as (exc0 & <- & _). reflexivity.
Qed.

End extractor.

(** ** The level filter and the sink *)

Section sink.
Context `{Packages}.

Lemma parseLogLevel_missing (data : string) :
  severity_missing data -> parseLogLevel data = (zerolog.Disabled, None).
Proof.
  unfold severity_missing, parseLogLevel.
  destruct (GetUnsafeString data zerolog.LevelFieldName) as [lvlStr [e |]];
    [reflexivity | intros Hm; now destruct Hm].
Qed.

Lemma parseLogLevel_unparseable (data : string) :
  severity_unparseable data -> snd (parseLogLevel data) <> None.
Proof.
  intros (lvlStr & Hget & Herr). unfold parseLogLevel. now rewrite Hget.
Qed.

Lemma parseLogLevel_parsed (data : string) (lvl : zerolog.Level) :
  severity_parsed data lvl -> parseLogLevel data = (lvl, None).
Proof.
  intros (lvlStr & Hget & Hparse). unfold parseLogLevel. now rewrite Hget.
Qed.

(** A record that is not admitted: nothing reaches the hub. *)
Lemma Write_not_admitted (w : Writer) (data : string) (hub : list HubCall) :
  snd (parseLogLevel data) <> None \/ fst (parseLogLevel data) ∉ levels w ->
  Write w data hub = (Done (Z.of_nat (String.length data), None), hub).
Proof.
  intros Hno. unfold Write.
  destruct (parseLogLevel data) as [lvl [e |]]; [reflexivity |].
  cbn [fst snd] in Hno. destruct Hno as [Herr | Hout]; [now destruct Herr |].
  now rewrite bool_decide_eq_false_2.
Qed.

(** An admitted, well-formed record: one event reaches the hub. *)
Lemma Write_admitted (w : Writer) (data : string) (hub : list HubCall)
    (lvl : zerolog.Level) :
  parseLogLevel data = (lvl, None) -> lvl ∈ levels w ->
  ObjectEach_error data = None ->
  exists ev, parseLogEvent data = Done (Some ev, true) /\
    Write w data hub
    = (Done (Z.of_nat (String.length data), None),
       hub ++ submission w (set_Level (levelsMapping_at lvl) ev)).
Proof.
  intros Hlvl Hin Hok.
  destruct (parseLogEvent_wellformed data Hok) as (ev & Hev & _).
  exists ev. split; [exact Hev |].
  unfold Write. rewrite Hlvl, bool_decide_eq_true_2 by exact Hin.
  cbn [negb]. unfold submission, lift, hub_CaptureEvent, hub_Flush, mbind, Go_bind.
  rewrite Hev. cbn [deref].
  destruct (String.eqb
              (sentry.Level_ (CaptureEvent_leaves (set_Level (levelsMapping_at lvl) ev)))
              sentry.LevelFatal).
  - now rewrite <- app_assoc.
  - reflexivity.
Qed.

(** An admitted record with a malformed object: the event is [nil] when its
    level is assigned. *)
Lemma Write_admitted_malformed (w : Writer) (data e : string) (hub : list HubCall)
    (lvl : zerolog.Level) :
  parseLogLevel data = (lvl, None) -> lvl ∈ levels w ->
  ObjectEach_error data = Some e ->
  Write w data hub = (Panicked NilDereference, hub).
Proof.
  intros Hlvl Hin Herr. unfold Write.
  rewrite Hlvl, bool_decide_eq_true_2 by exact Hin.
  cbn [negb]. unfold lift, mbind, Go_bind.
  now rewrite (parseLogEvent_malformed data e Herr).
Qed.

(** The same two cases of [WriteLevel]. *)
Lemma WriteLevel_admitted (w : Writer) (level : zerolog.Level) (p : string)
    (hub : list HubCall) :
  level ∈ levels w -> ObjectEach_error p = None ->
  exists ev, parseLogEvent p = Done (Some ev, true) /\
    WriteLevel w level p hub
    = (Done (Z.of_nat (String.length p), None),
       hub ++ submission w (set_Level (levelsMapping_at level) ev)).
Proof.
  intros Hin Hok.
  destruct (parseLogEvent_wellformed p Hok) as (ev & Hev & _).
  exists ev. split; [exact Hev |].
  unfold WriteLevel. rewrite bool_decide_eq_true_2 by exact Hin.
  cbn [negb]. unfold submission, lift, hub_CaptureEvent, hub_Flush, mbind, Go_bind.
  rewrite Hev. cbn [deref].
  destruct (String.eqb
              (sentry.Level_ (CaptureEvent_leaves (set_Level (levelsMapping_at level) ev)))
              sentry.LevelFatal).
  - now rewrite <- app_assoc.
  - reflexivity.
Qed.

Lemma WriteLevel_admitted_malformed (w : Writer) (level : zerolog.Level) (p e : string)
    (hub : list HubCall) :
  level ∈ levels w -> ObjectEach_error p = Some e ->
  WriteLevel w level p hub = (Panicked NilDereference, hub).
Proof.
  intros Hin Herr. unfold WriteLevel.
  rewrite bool_decide_eq_true_2 by exact Hin.
  cbn [negb]. unfold lift, mbind, Go_bind.
  now rewrite (parseLogEvent_malformed p e Herr).
Qed.

End sink.

(** ** [Write], [WriteLevel], [Close] and [parseLogEvent] *)

Section writer_properties.
Context `{Packages}.

(** C2, as the code has it. A record is dropped, with nothing submitted to
    the hub and [len(data), nil] returned, when its severity field does not
    parse, when it parses to a level outside the enabled set, and when it is
    missing while [zerolog.Disabled], the level a missing field is read as,
    is outside the enabled set. *)
Theorem Write_drops_records_outside_enabled_set (w : Writer) (data : string)
    (hub : list HubCall) :
  (severity_missing data /\ zerolog.Disabled ∉ levels w) \/
  severity_unparseable data \/
  (exists lvl, severity_parsed data lvl /\ lvl ∉ levels w) ->
  Write w data hub = (Done (Z.of_nat (String.length data), None), hub).
Proof.
  intros [[Hmiss Hout] | [Hbad | (lvl & Hlvl & Hout)]].
  - apply Write_not_admitted. right.
    now rewrite (parseLogLevel_missing data Hmiss).
  - apply Write_not_admitted. left. now apply parseLogLevel_unparseable.
  - apply Write_not_admitted. right.
    now rewrite (parseLogLevel_parsed data lvl Hlvl).
Qed.

(** C3, as the code has it. For a well-formed record with an enabled
    severity and no explicit fingerprint, the fingerprint of the submitted
    event lists the values of the message and error fields in document
    order; it is [M; E1; E2] when these fields come in the order message,
    error, error. *)
Theorem fingerprint_in_document_order (w : Writer) (data : string)
    (hub : list HubCall) (lvl : zerolog.Level) :
  parseLogLevel data = (lvl, None) -> lvl ∈ levels w ->
  ObjectEach_error data = None ->
  snd (GetString data "fingerprint") <> None ->
  exists ev,
    Write w data hub
    = (Done (Z.of_nat (String.length data), None), hub ++ submission w ev) /\
    sentry.Fingerprint ev = fingerprintValues (ObjectEach_pairs data) /\
    (forall M E1 E2,
       List.filter (fun kv => is_message (fst kv) || is_error (fst kv))
                   (ObjectEach_pairs data)
       = [("message", M); ("error", E1); ("error", E2)] ->
       sentry.Fingerprint ev = [M; E1; E2]).
Proof.
  intros Hlvl Hin Hok Hnofp.
  destruct (Write_admitted w data hub lvl Hlvl Hin Hok) as (ev & Hev & Hwrite).
  destruct (parseLogEvent_wellformed data Hok) as (ev' & Hev' & Hfp & _).
  rewrite Hev in Hev'. inversion Hev'; subst ev'. clear Hev'.
  exists (set_Level (levelsMapping_at lvl) ev). split; [exact Hwrite |].
  assert (Hvalues : sentry.Fingerprint (set_Level (levelsMapping_at lvl) ev)
                    = fingerprintValues (ObjectEach_pairs data)).
  { cbn [set_Level sentry.Fingerprint]. rewrite Hfp. unfold fingerprint_of.
    destruct (GetString data "fingerprint") as [fingerprint [e |]];
      [reflexivity | now destruct Hnofp]. }
  split; [exact Hvalues |].
  intros M E1 E2 Horder. rewrite Hvalues. unfold fingerprintValues.
  now rewrite Horder.
Qed.

(** C4. For every well-formed record, the event has one exception per
    error field, in document order, and the type of every exception is the
    record's final message value, wherever the message field stands. *)
Theorem exception_types_are_final_message (data : string) :
  ObjectEach_error data = None ->
  exists ev, parseLogEvent data = Done (Some ev, true) /\
    sentry.Message ev = finalMessage (ObjectEach_pairs data) /\
    map sentry.Value (sentry.Exception_ ev) = errorValues (ObjectEach_pairs data) /\
    Forall (fun exc => sentry.Type_ exc = finalMessage (ObjectEach_pairs data))
           (sentry.Exception_ ev).
Proof.
  intros Hok.
  destruct (parseLogEvent_wellformed data Hok) as (ev & Hev & _ & Hmsg & Hvals & Htypes & _).
  exists ev. auto.
Qed.


(** C7, as the code has it. For every well-formed record on which
    [GetString data "fingerprint"] answers a non-empty string [F] (the
    first top-level "fingerprint" field, when it is a string), the
    fingerprint of the event is [[F]], whatever the message and error
    fields contributed. *)
Theorem explicit_fingerprint_overrides (data F : string) :
  ObjectEach_error data = None ->
  GetString data "fingerprint" = (F, None) -> F <> "" ->
  exists ev, parseLogEvent data = Done (Some ev, true) /\
    sentry.Fingerprint ev = [F].
Proof.
  intros Hok Hget Hnonempty.
  destruct (parseLogEvent_wellformed data Hok) as (ev & Hev & Hfp & _).
  exists ev. split; [exact Hev |].
  rewrite Hfp. unfold fingerprint_of. rewrite Hget.
  apply String.eqb_neq in Hnonempty. now rewrite Hnonempty.
Qed.

(** [Write] returns [len(data), nil] whenever it returns, and the one way
    it does not return is the nil dereference on an admitted record whose
    object is malformed. *)
Theorem Write_returns_length_or_panics (w : Writer) (data : string)
    (hub : list HubCall) :
  (exists calls,
     Write w data hub = (Done (Z.of_nat (String.length data), None), hub ++ calls)) \/
  (Write w data hub = (Panicked NilDereference, hub) /\
   exists lvl, parseLogLevel data = (lvl, None) /\ lvl ∈ levels w /\
     ObjectEach_error data <> None).
Proof.
  destruct (parseLogLevel data) as [lvl err] eqn:Hlvl.
  destruct err as [e |].
  { left. exists []. rewrite app_nil_r. apply Write_not_admitted.
    left. now rewrite Hlvl. }
  destruct (decide (lvl ∈ levels w)) as [Hin | Hout].
  - destruct (ObjectEach_error data) as [e |] eqn:Herr.
    + right. split.
      * now apply (Write_admitted_malformed w data e hub lvl).
      * exists lvl. easy.
    + left. destruct (Write_admitted w data hub lvl Hlvl Hin Herr) as (ev & _ & Hw).
      eexists. exact Hw.
  - left. exists []. rewrite app_nil_r. apply Write_not_admitted.
    right. now rewrite Hlvl.
Qed.

(** [WriteLevel] treats a record as [Write] does once the level is known:
    nothing is submitted for a level outside the enabled set, one event for
    an enabled level and a well-formed record, and the same nil dereference
    for an enabled level and a malformed record. *)
Theorem WriteLevel_cases (w : Writer) (level : zerolog.Level) (p : string)
    (hub : list HubCall) :
  (level ∉ levels w ->
   WriteLevel w level p hub = (Done (Z.of_nat (String.length p), None), hub)) /\
  (level ∈ levels w -> ObjectEach_error p = None ->
   exists ev, sentry.Level_ ev = levelsMapping_at level /\
     WriteLevel w level p hub
     = (Done (Z.of_nat (String.length p), None), hub ++ submission w ev)) /\
  (level ∈ levels w -> ObjectEach_error p <> None ->
   WriteLevel w level p hub = (Panicked NilDereference, hub)).
Proof.
  split; [| split].
  - intros Hout. unfold WriteLevel. now rewrite bool_decide_eq_false_2.
  - intros Hin Hok.
    destruct (WriteLevel_admitted w level p hub Hin Hok) as (ev & _ & Hw).
    exists (set_Level (levelsMapping_at level) ev). split; [reflexivity | exact Hw].
  - intros Hin Herr. destruct (ObjectEach_error p) as [e |] eqn:He; [| now destruct Herr].
    now apply (WriteLevel_admitted_malformed w level p e hub).
Qed.

End writer_properties.

(** The level mapping is defined at the six levels from debug to panic and
    at no other level. *)
Theorem levelsMapping_domain (lvl : zerolog.Level) :
  is_Some (levelsMapping !! lvl) <->
  zerolog.DebugLevel <= lvl <= zerolog.PanicLevel.
Proof.
  unfold levelsMapping, zerolog.DebugLevel, zerolog.InfoLevel, zerolog.WarnLevel,
    zerolog.ErrorLevel, zerolog.FatalLevel, zerolog.PanicLevel.
  cbn [list_to_map foldr fst snd uncurry].
  rewrite !lookup_insert_is_Some, lookup_empty.
  split.
  - intros Hdef. repeat (destruct Hdef as [<- | [_ Hdef]]; [lia |]).
    destruct Hdef as [x Hx]. discriminate.
  - intros Hrange.
    assert (Hcases : lvl = 0 \/ lvl = 1 \/ lvl = 2 \/ lvl = 3 \/ lvl = 4 \/ lvl = 5)
      by lia.
    destruct (decide (0 = lvl)); [now left | right; split; [assumption |]].
    destruct (decide (1 = lvl)); [now left | right; split; [assumption |]].
    destruct (decide (2 = lvl)); [now left | right; split; [assumption |]].
    destruct (decide (3 = lvl)); [now left | right; split; [assumption |]].
    destruct (decide (4 = lvl)); [now left | right; split; [assumption |]].
    destruct (decide (5 = lvl)); [now left | lia].
Qed.

(** ** The sample records *)

Section samples.
#[local] Existing Instance sample.packages.

Lemma in_levels (lvl : zerolog.Level) (w : Writer) :
  bool_decide (lvl ∈ levels w) = true -> lvl ∈ levels w.
Proof. apply bool_decide_eq_true_1. Qed.

Lemma not_in_levels (lvl : zerolog.Level) (w : Writer) :
  bool_decide (lvl ∈ levels w) = false -> lvl ∉ levels w.
Proof. apply bool_decide_eq_false_1. Qed.

(** C1. [Write] does not complete on a record that is cut short after an
    enabled level: with the default writer, the level of
    [{"level":"error","message":"boom"] parses and is enabled, [ObjectEach]
    ends with an error, [parseLogEvent] returns a nil event, and the
    assignment of its level panics before anything is returned. *)
Theorem Write_panics_on_truncated_record :
  New sample.dsn [] = (Some sample.default, None) /\
  parseLogLevel sample.truncated = (zerolog.ErrorLevel, None) /\
  zerolog.ErrorLevel ∈ levels sample.default /\
  parseLogEvent sample.truncated = Done (None, false) /\
  Write sample.default sample.truncated [] = (Panicked NilDereference, []).
Proof.
  assert (Hin : zerolog.ErrorLevel ∈ levels sample.default)
    by (apply in_levels; vm_compute; reflexivity).
  split; [reflexivity |]. split; [reflexivity |]. split; [exact Hin |].
  split; [vm_compute; reflexivity |].
  apply (Write_admitted_malformed sample.default sample.truncated "malformed" []
           zerolog.ErrorLevel); [reflexivity | exact Hin | reflexivity].
Qed.

(** C2 fails where [zerolog.Disabled] is enabled: the record
    [{"message":"x"}] has no severity field and its event is submitted. *)
Lemma missing_severity_submitted_when_Disabled_enabled :
  severity_missing sample.without_level /\
  exists w ev,
    New sample.dsn [WithLevels [zerolog.Disabled]] = (Some w, None) /\
    Write w sample.without_level []
    = (Done (Z.of_nat (String.length sample.without_level), None), [CaptureEvent ev]).
Proof.
  split; [vm_compute; discriminate |].
  eexists. eexists. split; [reflexivity |]. vm_compute. reflexivity.
Qed.

(** The default writer drops a debug record. *)
Lemma Write_drops_records_outside_enabled_set_sample :
  Write sample.default sample.debug_record []
  = (Done (Z.of_nat (String.length sample.debug_record), None), []).
Proof.
  apply (Write_drops_records_outside_enabled_set sample.default sample.debug_record []).
  right. right. exists zerolog.DebugLevel. split.
  - exists "debug". split; reflexivity.
  - apply not_in_levels. vm_compute. reflexivity.
Defined.

(** C3 fails where an error field comes before the message field: the
    record [{"level":"error","error":"E1","message":"M","error":"E2"}] is
    well formed, its level is enabled, it has no fingerprint field, and the
    fingerprint of its event is [E1; M; E2]. *)
Lemma fingerprint_error_before_message :
  ObjectEach_error sample.error_first = None /\
  parseLogLevel sample.error_first = (zerolog.ErrorLevel, None) /\
  zerolog.ErrorLevel ∈ levels sample.default /\
  snd (GetString sample.error_first "fingerprint") <> None /\
  exists ev,
    Write sample.default sample.error_first []
    = (Done (Z.of_nat (String.length sample.error_first), None), [CaptureEvent ev]) /\
    sentry.Fingerprint ev = ["E1"; "M"; "E2"].
Proof.
  split; [reflexivity |].
  split; [reflexivity |].
  split; [apply in_levels; vm_compute; reflexivity |].
  split; [vm_compute; discriminate |].
  eexists. split; [vm_compute; reflexivity | reflexivity].
Qed.

(** With the message field first the fingerprint is [M; E1; E2]. *)
Lemma fingerprint_in_document_order_sample :
  exists ev,
    Write sample.default sample.message_first []
    = (Done (Z.of_nat (String.length sample.message_first), None),
       [] ++ submission sample.default ev) /\
    sentry.Fingerprint ev = ["M"; "E1"; "E2"].
Proof.
  destruct (fingerprint_in_document_order sample.default sample.message_first []
              zerolog.ErrorLevel) as (ev & Hwrite & _ & Horder).
  - reflexivity.
  - apply in_levels. vm_compute. reflexivity.
  - reflexivity.
  - vm_compute. discriminate.
  - exists ev. split; [exact Hwrite |]. apply Horder. reflexivity.
Defined.

(** The exceptions of the record with an error before its message. *)
Lemma exception_types_are_final_message_sample :
  exists ev, parseLogEvent sample.error_first = Done (Some ev, true) /\
    sentry.Message ev = "M" /\
    map sentry.Value (sentry.Exception_ ev) = ["E1"; "E2"] /\
    Forall (fun exc => sentry.Type_ exc = "M") (sentry.Exception_ ev).
Proof.
  exact (exception_types_are_final_message sample.error_first eq_refl).
Defined.

(** The stack of the samples without its innermost frame. *)
Lemma newStacktrace_trims_bridge_and_logger_sample :
  stacktrace.newStacktrace_of
    {| sentry.Frames := rev [
         sample.frame "(*Writer).parseLogEvent" go_mod_module "writer.go" 114;
         sample.frame "(*Writer).Write" go_mod_module "writer.go" 48;
         sample.frame "(*Event).msg" stacktrace.loggerModule "event.go" 158;
         sample.frame "(*Event).Msg" stacktrace.loggerModule "event.go" 108;
         sample.frame "handle" "main" "main.go" 40;
         sample.frame "main" "main" "main.go" 12 ] |}
  = Done {| sentry.Frames := rev [
              sample.frame "handle" "main" "main.go" 40;
              sample.frame "main" "main" "main.go" 12 ] |}.
Proof.
  apply newStacktrace_trims_bridge_and_logger; try reflexivity.
  vm_compute. discriminate.
Defined.



(** C7 fails where the "fingerprint" field of value [F] is not the first
    one: the record
    [{"level":"error","message":"M","fingerprint":"","fingerprint":"F"}]
    is well formed and has a "fingerprint" field of value [F], [GetString]
    answers the empty string of the first field, and the fingerprint of
    the event stays [[M]]. *)
Lemma later_fingerprint_field_does_not_override :
  ObjectEach_error sample.two_fingerprints = None /\
  In ("fingerprint", "F") (ObjectEach_pairs sample.two_fingerprints) /\
  GetString sample.two_fingerprints "fingerprint" = ("", None) /\
  exists ev, parseLogEvent sample.two_fingerprints = Done (Some ev, true) /\
    sentry.Fingerprint ev = ["M"].
Proof.
  split; [reflexivity |]. split; [vm_compute; tauto |]. split; [reflexivity |].
  eexists. split; [vm_compute; reflexivity | reflexivity].
Qed.


(** The record with a fingerprint field. *)
Lemma explicit_fingerprint_overrides_sample :
  exists ev, parseLogEvent sample.with_fingerprint = Done (Some ev, true) /\
    sentry.Fingerprint ev = ["F"].
Proof.
  apply (explicit_fingerprint_overrides sample.with_fingerprint "F");
    [reflexivity | reflexivity | discriminate].
Defined.

(** [WriteLevel] on the record cut short, at an enabled level, and on a
    debug record at a level that is not enabled. *)
Lemma WriteLevel_cases_sample :
  WriteLevel sample.default zerolog.ErrorLevel sample.truncated []
  = (Panicked NilDereference, []) /\
  WriteLevel sample.default zerolog.DebugLevel sample.debug_record []
  = (Done (Z.of_nat (String.length sample.debug_record), None), []).
Proof.
  destruct (WriteLevel_cases sample.default zerolog.ErrorLevel sample.truncated [])
    as (_ & _ & Hpanic).
  destruct (WriteLevel_cases sample.default zerolog.DebugLevel sample.debug_record [])
    as (Hdrop & _).
  split.
  - apply Hpanic; [apply in_levels; vm_compute; reflexivity | vm_compute; discriminate].
  - apply Hdrop. apply not_in_levels. vm_compute. reflexivity.
Defined.

(** C8. The level mapping has no entry for [zerolog.TraceLevel]: a writer
    built with [WithLevels(zerolog.TraceLevel)] admits the record
    [{"level":"trace","message":"x"}] and submits its event with the empty
    level, which is none of Sentry's severities. *)
Theorem trace_level_has_no_mapping :
  levelsMapping !! zerolog.TraceLevel = None /\
  exists w ev,
    New sample.dsn [WithLevels [zerolog.TraceLevel]] = (Some w, None) /\
    Write w sample.trace_record []
    = (Done (Z.of_nat (String.length sample.trace_record), None), [CaptureEvent ev]) /\
    sentry.Level_ ev = "".
Proof.
  split; [vm_compute; reflexivity |].
  eexists. eexists. split; [reflexivity |].
  split; [vm_compute; reflexivity | reflexivity].
Qed.

End samples.

(** ** More on the stack trace pruner *)

Section pruner.
Import stacktrace.

(** The second loop passes over the frames that are not the logger's. *)
Lemma dropLoggerFrames_skip (frames : list sentry.Frame) (k q : nat) (threshold : Z) :
  (q <= k)%nat -> (k < length frames)%nat ->
  (forall i f, (q < i <= k)%nat -> frames !! i = Some f ->
               sentry.Module_ f <> loggerModule) ->
  dropLoggerFrames frames k threshold = dropLoggerFrames frames q threshold.
Proof.
  intros Hqk Hk Hnot. induction k as [| k IH]; [now replace q with 0%nat by lia |].
  destruct (decide (q = S k)) as [-> | Hne]; [reflexivity |].
  destruct (index_in_range frames (S k) Hk) as (f & Hf & _).
  rewrite (stacktrace_facts.dropLoggerFrames_step frames k threshold f Hf).
  assert (Hmod : sentry.Module_ f <> loggerModule) by (apply (Hnot (S k)); [lia | exact Hf]).
  apply String.eqb_neq in Hmod. rewrite Hmod.
  apply IH; [lia | lia |]. intros i g Hi. apply Hnot. lia.
Qed.

(** The inner loop stops on the first frame, going towards the root, that
    is not the logger's. *)
Lemma callerBelow_found (frames : list sentry.Frame) (n p : nat) (c : sentry.Frame) :
  (p < n <= length frames)%nat ->
  frames !! p = Some c -> sentry.Module_ c <> loggerModule ->
  (forall i f, (p < i < n)%nat -> frames !! i = Some f ->
               sentry.Module_ f = loggerModule) ->
  callerBelow frames n = Done (Some (Z.of_nat p)).
Proof.
  intros Hpn Hc Hmod Hrun. induction n as [| n IH]; [lia |].
  destruct (decide (p = n)) as [-> | Hne].
  - rewrite (stacktrace_facts.callerBelow_step frames n c Hc).
    apply String.eqb_neq in Hmod. now rewrite Hmod.
  - destruct (index_in_range frames n) as (f & Hf & _); [lia |].
    rewrite (stacktrace_facts.callerBelow_step frames n f Hf).
    rewrite (Hrun n f) by (try lia; exact Hf). rewrite String.eqb_refl. cbn [negb].
    apply IH; [lia |]. intros i g Hi. apply Hrun. lia.
Qed.

(** The inner loop ends without a result when the logger's frames reach the
    root. *)
Lemma callerBelow_none (frames : list sentry.Frame) (n : nat) :
  (n <= length frames)%nat ->
  (forall i f, (i < n)%nat -> frames !! i = Some f ->
               sentry.Module_ f = loggerModule) ->
  callerBelow frames n = Done None.
Proof.
  intros Hn Hrun. induction n as [| n IH]; [reflexivity |].
  destruct (index_in_range frames n) as (f & Hf & _); [lia |].
  rewrite (stacktrace_facts.callerBelow_step frames n f Hf).
  rewrite (Hrun n f) by (try lia; exact Hf). rewrite String.eqb_refl. cbn [negb].
  apply IH; [lia |]. intros i g Hi. apply Hrun. lia.
Qed.

(** The threshold the second loop ends with, by the place of the innermost
    logger frame at or below the threshold it starts with. *)
Lemma dropLoggerFrames_at_logger (frames : list sentry.Frame) (k q : nat)
    (threshold : Z) (l : sentry.Frame) :
  (0 < q <= k)%nat -> (k < length frames)%nat ->
  frames !! q = Some l -> sentry.Module_ l = loggerModule ->
  (forall i f, (q < i <= k)%nat -> frames !! i = Some f ->
               sentry.Module_ f <> loggerModule) ->
  dropLoggerFrames frames k threshold
  = r ← callerBelow frames q;
    match r with
    | Some j => Done j
    | None => Done threshold
    end.
Proof.
  intros Hq Hk Hl Hmod Hnot.
  rewrite (dropLoggerFrames_skip frames k q threshold) by (try lia; exact Hnot).
  destruct q as [| q]; [lia |].
  rewrite (stacktrace_facts.dropLoggerFrames_step frames q threshold l Hl).
  now rewrite Hmod, String.eqb_refl.
Qed.

(** Without a logger frame above the root the second loop changes nothing. *)
Lemma dropLoggerFrames_no_logger (frames : list sentry.Frame) (k : nat) (threshold : Z) :
  (k = 0 \/ k < length frames)%nat ->
  (forall i f, (0 < i <= k)%nat -> frames !! i = Some f ->
               sentry.Module_ f <> loggerModule) ->
  dropLoggerFrames frames k threshold = Done threshold.
Proof.
  intros Hk Hnot. destruct Hk as [-> | Hk]; [reflexivity |].
  now rewrite (dropLoggerFrames_skip frames k 0 threshold) by (try lia; exact Hnot).
Qed.

(** The result of [newStacktrace] from the thresholds of its two loops. *)
Lemma newStacktrace_of_thresholds (frames : list sentry.Frame) (t1 t2 : Z) :
  step1 frames = Done t1 ->
  dropLoggerFrames frames (Z.to_nat t1) t1 = Done t2 ->
  -1 <= t2 < Z.of_nat (length frames) ->
  newStacktrace_of {| sentry.Frames := frames |}
  = Done {| sentry.Frames := take (Z.to_nat (t2 + 1)) frames |}.
Proof.
  intros H1 H2 Hrange. unfold newStacktrace_of. cbn [sentry.Frames].
  rewrite H1. cbn [mbind run_bind]. rewrite H2. cbn [mbind run_bind].
  now rewrite slice_to_in_range by lia.
Qed.

(** The first loop stops at or above every frame of the logger. *)
Lemma step1_above_logger (frames : list sentry.Frame) (q : nat) (l : sentry.Frame) :
  frames !! q = Some l -> sentry.Module_ l = loggerModule ->
  exists t, step1 frames = Done t /\ Z.of_nat q <= t < Z.of_nat (length frames).
Proof.
  intros Hl Hmod.
  destruct (stacktrace_facts.step1_spec frames) as (t & Ht & Hrange & _ & Hdropped & _).
  exists t. split; [exact Ht |]. split; [| lia].
  destruct (Z.le_gt_cases (Z.of_nat q) t) as [Hle | Hgt]; [exact Hle |].
  specialize (Hdropped q l Hgt Hl). rewrite Hmod in Hdropped. discriminate.
Qed.

End pruner.

(** For every captured stack that reads, from the root to the innermost
    call, [outer], the caller [c], one or more frames of the logger, and
    frames that are not the logger's (the bridge's among them),
    [newStacktrace] returns [outer] and the caller: the trace ends at the
    call into the logger. *)
Theorem newStacktrace_ends_at_logger_call (outer ls inner : list sentry.Frame)
    (c : sentry.Frame) :
  ls <> [] ->
  Forall (fun f => sentry.Module_ f = stacktrace.loggerModule) ls ->
  sentry.Module_ c <> stacktrace.loggerModule ->
  Forall (fun f => sentry.Module_ f <> stacktrace.loggerModule) inner ->
  stacktrace.newStacktrace_of {| sentry.Frames := outer ++ c :: ls ++ inner |}
  = Done {| sentry.Frames := outer ++ [c] |}.
Proof.
  intros Hne Hls Hc Hinner.
  set (frames := outer ++ c :: ls ++ inner).
  set (p := length outer). set (q := (p + length ls)%nat).
  assert (Hlen : length frames = (S q + length inner)%nat).
  { unfold frames, q, p. rewrite length_app. cbn [length]. rewrite length_app. lia. }
  assert (Hpos : (0 < length ls)%nat) by (destruct ls; [congruence | cbn; lia]).
  assert (Hp : frames !! p = Some c) by (now apply list_lookup_middle).
  assert (Hrun : forall i f, (p < i <= q)%nat -> frames !! i = Some f ->
                             sentry.Module_ f = stacktrace.loggerModule).
  { intros i f Hi Hf. unfold frames in Hf.
    rewrite lookup_app_r in Hf by (fold p; lia). fold p in Hf.
    destruct (i - p)%nat as [| d] eqn:Hd; [lia |].
    change ((ls ++ inner) !! d = Some f) in Hf.
    rewrite lookup_app_l in Hf by (unfold q in Hi; lia).
    exact (Forall_lookup_1 _ _ _ _ Hls Hf). }
  assert (Hrest : forall i f, (q < i)%nat -> frames !! i = Some f ->
                              sentry.Module_ f <> stacktrace.loggerModule).
  { intros i f Hi Hf. unfold frames in Hf.
    rewrite lookup_app_r in Hf by (fold p; unfold q in Hi; lia). fold p in Hf.
    destruct (i - p)%nat as [| d] eqn:Hd; [unfold q in Hi; lia |].
    change ((ls ++ inner) !! d = Some f) in Hf.
    rewrite lookup_app_r in Hf by (unfold q in Hi; lia).
    exact (Forall_lookup_1 _ _ _ _ Hinner Hf). }
  destruct (index_in_range frames q) as (l & Hl & _); [lia |].
  destruct (step1_above_logger frames q l Hl (Hrun q l ltac:(lia) Hl))
    as (t1 & Ht1 & Hrange1).
  rewrite (newStacktrace_of_thresholds frames t1 (Z.of_nat p) Ht1); [| | lia].
  - f_equal. f_equal. replace (Z.to_nat (Z.of_nat p + 1)) with (S p) by lia.
    unfold frames. change (c :: ls ++ inner) with ([c] ++ (ls ++ inner)).
    rewrite app_assoc. apply take_app_length'. rewrite length_app. cbn. lia.
  - rewrite (dropLoggerFrames_at_logger frames (Z.to_nat t1) q t1 l);
      [| lia | lia | exact Hl | exact (Hrun q l ltac:(lia) Hl)
       | intros i f Hi; apply Hrest; lia].
    rewrite (callerBelow_found frames q p c); [reflexivity | lia | exact Hp | exact Hc |].
    intros i f Hi. apply Hrun. lia.
Qed.

(** When no caller lies below the logger's frames, because the stack has no
    frame of the logger or because the logger's frames reach the root, the
    second loop changes nothing: [newStacktrace] only drops what its first
    loop drops, and returns the captured stack as it is when the innermost
    frame is not of the module the first loop looks for. *)
Theorem newStacktrace_without_caller_below_logger (ls inner : list sentry.Frame) :
  Forall (fun f => sentry.Module_ f = stacktrace.loggerModule) ls ->
  Forall (fun f => sentry.Module_ f <> stacktrace.loggerModule) inner ->
  exists t,
    stacktrace.step1 (ls ++ inner) = Done t /\
    stacktrace.newStacktrace_of {| sentry.Frames := ls ++ inner |}
    = Done {| sentry.Frames := take (Z.to_nat (t + 1)) (ls ++ inner) |} /\
    (forall f, last (ls ++ inner) = Some f ->
               sentry.Module_ f <> stacktrace.module ->
               take (Z.to_nat (t + 1)) (ls ++ inner) = ls ++ inner).
Proof.
  intros Hls Hinner. set (frames := ls ++ inner).
  assert (Hrun : forall i f, (i < length ls)%nat -> frames !! i = Some f ->
                             sentry.Module_ f = stacktrace.loggerModule).
  { intros i f Hi Hf. unfold frames in Hf. rewrite lookup_app_l in Hf by lia.
    exact (Forall_lookup_1 _ _ _ _ Hls Hf). }
  assert (Hrest : forall i f, (length ls <= i)%nat -> frames !! i = Some f ->
                              sentry.Module_ f <> stacktrace.loggerModule).
  { intros i f Hi Hf. unfold frames in Hf. rewrite lookup_app_r in Hf by lia.
    exact (Forall_lookup_1 _ _ _ _ Hinner Hf). }
  destruct (stacktrace_facts.step1_spec frames)
    as (t & Ht & Hrange & _ & Hdropped & _).
  exists t. split; [exact Ht |].
  assert (Hstep2 : stacktrace.dropLoggerFrames frames (Z.to_nat t) t = Done t).
  { destruct (decide (length ls <= 1)%nat) as [Hshort | Hlong].
    - apply dropLoggerFrames_no_logger; [lia |].
      intros i f Hi. apply Hrest. lia.
    - destruct (index_in_range frames (length ls - 1)) as (l & Hl & _).
      { unfold frames. rewrite length_app. lia. }
      destruct (step1_above_logger frames (length ls - 1) l Hl
                  (Hrun (length ls - 1)%nat l ltac:(lia) Hl)) as (t' & Ht' & Hrange').
      rewrite Ht in Ht'. inversion Ht'; subst t'.
      rewrite (dropLoggerFrames_at_logger frames (Z.to_nat t) (length ls - 1) t l);
        [| lia | lia | exact Hl | exact (Hrun (length ls - 1)%nat l ltac:(lia) Hl)
         | intros i f Hi; apply Hrest; lia].
      rewrite callerBelow_none; [reflexivity | unfold frames; rewrite length_app; lia |].
      intros i f Hi. apply Hrun. lia. }
  split.
  - apply (newStacktrace_of_thresholds frames t t Ht Hstep2). lia.
  - intros f Hlast Hmod. apply take_ge.
    rewrite last_lookup in Hlast.
    destruct (Z.le_gt_cases (Z.of_nat (length frames) - 1) t) as [Hle | Hgt]; [lia |].
    exfalso. apply Hmod. apply (Hdropped (Init.Nat.pred (length frames)) f); [| exact Hlast].
    apply lookup_lt_Some in Hlast. lia.
Qed.

(** [newStacktrace] never drops the root: the outermost frame of a captured
    stack that has one is the outermost frame of the result, and the result
    holds no frame that the first loop alone would drop. *)
Theorem newStacktrace_keeps_root (st : sentry.Stacktrace) (root : sentry.Frame) :
  sentry.Frames st !! 0%nat = Some root ->
  exists t1 n,
    stacktrace.step1 (sentry.Frames st) = Done t1 /\
    (1 <= n <= Z.to_nat (t1 + 1))%nat /\
    stacktrace.newStacktrace_of st
    = Done {| sentry.Frames := take n (sentry.Frames st) |} /\
    take n (sentry.Frames st) !! 0%nat = Some root.
Proof.
  destruct st as [frames]. cbn [sentry.Frames]. intros Hroot.
  destruct (stacktrace_facts.step1_spec frames) as (t1 & H1 & Hrange1 & Hnonneg & _).
  assert (Hpos : 0 <= t1) by (apply Hnonneg; intros ->; discriminate).
  destruct (stacktrace_facts.dropLoggerFrames_spec frames (Z.to_nat t1) t1)
    as (t2 & H2 & Hrange2); [lia |].
  exists t1, (Z.to_nat (t2 + 1)). split; [exact H1 |]. split; [lia |]. split.
  - apply (newStacktrace_of_thresholds frames t1 t2 H1 H2). lia.
  - rewrite lookup_take_lt by lia. exact Hroot.
Qed.

(** ** More on the field extractor *)

Section extractor_fields.
Context `{Packages}.

(** One call of the callback, for the fields of the event that the pass
    does not accumulate in lists. *)
Lemma eachField_frame (s : locals) (key value : string) :
  exists s', eachField s key value = Done (s', None) /\
    sentry.Extra (event s')
    = (if is_reserved key then sentry.Extra (event s)
       else <[key := value]> (sentry.Extra (event s))) /\
    sentry.ID (sentry.User_ (event s'))
    = (if String.eqb key "user_id" && String.eqb (sentry.ID (sentry.User_ (event s))) ""
       then value else sentry.ID (sentry.User_ (event s))) /\
    sentry.Timestamp (event s') = sentry.Timestamp (event s) /\
    sentry.Logger (event s') = sentry.Logger (event s).
Proof.
  destruct newStacktrace_total as [st Hst].
  unfold eachField, is_reserved. fold (is_message key). fold (is_error key).
  destruct (is_message key) eqn:Hm.
  { apply String.eqb_eq in Hm. subst key. eexists. split; [reflexivity |]. now cbn. }
  destruct (is_error key) eqn:He.
  { apply String.eqb_eq in He. subst key. rewrite Hst.
    eexists. split; [reflexivity |]. now cbn. }
  cbn [orb].
  destruct (String.eqb key zerolog.LevelFieldName
            || String.eqb key zerolog.TimestampFieldName) eqn:Hskip.
  { apply orb_true_iff in Hskip.
    exists s. split; [reflexivity |].
    destruct Hskip as [Hk | Hk]; apply String.eqb_eq in Hk; subst key; now cbn. }
  destruct (String.eqb_spec key "user_id") as [-> | Hne].
  - eexists. split; [reflexivity |]. cbn [event andb].
    destruct (String.eqb (sentry.ID (sentry.User_ (event s))) ""); now cbn.
  - eexists. split; [reflexivity |]. now cbn.
Qed.

(** The same fields after the pass over the pairs. *)
Lemma ObjectEach_from_eachField_frame (pairs : list (string * string)) (final : error)
    (s : locals) :
  exists s', ObjectEach_from pairs final eachField s = Done (s', final) /\
    (forall key,
       sentry.Extra (event s') !! key
       = if is_reserved key then sentry.Extra (event s) !! key
         else match last (valuesOf key pairs) with
              | Some v => Some v
              | None => sentry.Extra (event s) !! key
              end) /\
    sentry.ID (sentry.User_ (event s'))
    = (if String.eqb (sentry.ID (sentry.User_ (event s))) ""
       then firstNonEmpty (valuesOf "user_id" pairs)
       else sentry.ID (sentry.User_ (event s))) /\
    sentry.Timestamp (event s') = sentry.Timestamp (event s) /\
    sentry.Logger (event s') = sentry.Logger (event s).
Proof.
  revert s. induction pairs as [| [k v] pairs IH]; intros s.
  - exists s. split; [reflexivity |]. split; [| split; [| easy]].
    + intros key. cbn. now destruct (is_reserved key).
    + cbn. destruct (String.eqb_spec (sentry.ID (sentry.User_ (event s))) ""); congruence.
  - destruct (eachField_frame s k v) as (s1 & Hstep & Hx1 & Hid1 & Ht1 & Hl1).
    destruct (IH s1) as (s' & Hrun & Hx & Hid & Ht & Hl).
    exists s'. split.
    { cbn [ObjectEach_from]. rewrite Hstep. cbn [mbind run_bind]. exact Hrun. }
    split; [| split; [| split; congruence]].
    + intros key. rewrite Hx, Hx1. unfold valuesOf. cbn [List.filter fst snd].
      destruct (String.eqb_spec k key) as [-> | Hne].
      * cbn [map snd]. rewrite list.last_cons.
        destruct (is_reserved key); [reflexivity |].
        rewrite lookup_insert_eq.
        now destruct (last (map snd (List.filter (fun kv => String.eqb (fst kv) key) pairs))).
      * assert (Hsame : (if is_reserved k then sentry.Extra (event s)
                         else <[k := v]> (sentry.Extra (event s))) !! key
                        = sentry.Extra (event s) !! key).
        { destruct (is_reserved k); [reflexivity | now apply lookup_insert_ne]. }
        now rewrite Hsame.
    + rewrite Hid, Hid1. unfold valuesOf, firstNonEmpty. cbn [List.filter fst snd].
      destruct (String.eqb_spec k "user_id") as [-> | Hne]; cbn [andb map snd List.find].
      * destruct (String.eqb_spec (sentry.ID (sentry.User_ (event s))) "") as [Hempty | Hset].
        -- destruct (String.eqb_spec v "") as [-> | Hv]; cbn [negb default]; reflexivity.
        -- apply String.eqb_neq in Hset. now rewrite Hset.
      * reflexivity.
Qed.

(** The event of a well-formed record keeps those fields as the pass left
    them. *)
Lemma parseLogEvent_frame (data : string) :
  ObjectEach_error data = None ->
  exists ev, parseLogEvent data = Done (Some ev, true) /\
    (forall key,
       sentry.Extra ev !! key
       = if is_reserved key then None else last (valuesOf key (ObjectEach_pairs data))) /\
    sentry.ID (sentry.User_ ev) = firstNonEmpty (valuesOf "user_id" (ObjectEach_pairs data)) /\
    sentry.Timestamp ev = now /\
    sentry.Logger ev = "zerolog".
Proof.
  intros Herr. unfold parseLogEvent, ObjectEach.
  edestruct ObjectEach_from_eachField_frame as (s & Hrun & Hx & Hid & Ht & Hl).
  rewrite Hrun, Herr. cbn [mbind run_bind mret run_ret].
  cbn [event sentry.Extra sentry.User_ sentry.ID sentry.Timestamp sentry.Logger]
    in Hx, Hid, Ht, Hl.
  match goal with
  | |- context [fold_left ?f (exceptions s) ?e0] =>
      assert (Hkeep : forall excs e,
                sentry.Extra (fold_left f excs e) = sentry.Extra e /\
                sentry.User_ (fold_left f excs e) = sentry.User_ e /\
                sentry.Timestamp (fold_left f excs e) = sentry.Timestamp e /\
                sentry.Logger (fold_left f excs e) = sentry.Logger e);
      [ induction excs as [| exc excs IHx]; intros e; [easy |];
        cbn [fold_left]; destruct (IHx (set_Exception
          (sentry.Exception_ e ++ [set_Type (message s) exc]) e)) as (-> & -> & -> & ->);
        easy
      | destruct (Hkeep (exceptions s) e0) as (Hx' & Hu' & Ht' & Hl') ]
  end.
  eexists. split; [reflexivity |].
  rewrite Hx', Hu', Ht', Hl'. cbn [set_Message sentry.Extra sentry.User_
    sentry.Timestamp sentry.Logger].
  assert (Hsame : forall e0,
            e0 = match GetString data "fingerprint" with
                 | (fingerprint, None) =>
                     if negb (String.eqb fingerprint "")
                     then set_Fingerprint [fingerprint] (event s)
                     else event s
                 | (_, Some _) => event s
                 end ->
            sentry.Extra e0 = sentry.Extra (event s) /\
            sentry.User_ e0 = sentry.User_ (event s) /\
            sentry.Timestamp e0 = sentry.Timestamp (event s) /\
            sentry.Logger e0 = sentry.Logger (event s)).
  { intros e0 ->. destruct (GetString data "fingerprint") as [fingerprint [e |]]; [easy |].
    destruct (negb (String.eqb fingerprint "")); easy. }
  destruct (Hsame _ eq_refl) as (-> & -> & -> & ->).
  split; [| split; [exact Hid | split; [exact Ht | exact Hl]]].
  intros key. rewrite Hx, lookup_empty.
  destruct (is_reserved key); [reflexivity |].
  now destruct (last (valuesOf key (ObjectEach_pairs data))).
Qed.

End extractor_fields.

Section extractor_properties.
Context `{Packages}.

(** [parseLogEvent] never panics and its flag tells whether its pointer is
    nil: it returns an event and [true] when [ObjectEach] ends without an
    error, and [nil] and [false] when it ends with one, whatever fields were
    read before the error. *)
Theorem parseLogEvent_nil_iff_malformed (data : string) :
  (ObjectEach_error data = None /\
   exists ev, parseLogEvent data = Done (Some ev, true)) \/
  (ObjectEach_error data <> None /\ parseLogEvent data = Done (None, false)).
Proof.
  destruct (ObjectEach_error data) as [e |] eqn:Herr.
  - right. split; [discriminate |]. now apply (parseLogEvent_malformed data e).
  - left. split; [reflexivity |].
    destruct (parseLogEvent_wellformed data Herr) as (ev & Hev & _). now exists ev.
Qed.

(** The [Extra] map of the event of a well-formed record has no entry for
    the message, error, level and time keys, and for every other key it
    holds the value of the last field of that name (none when the record
    has no such field); a "fingerprint" field is recorded there as well. *)
Theorem Extra_holds_last_value_of_other_keys (data : string) :
  ObjectEach_error data = None ->
  exists ev, parseLogEvent data = Done (Some ev, true) /\
    (forall key,
       sentry.Extra ev !! key
       = if is_reserved key then None else last (valuesOf key (ObjectEach_pairs data))) /\
    sentry.Extra ev !! "fingerprint" = last (valuesOf "fingerprint" (ObjectEach_pairs data)).
Proof.
  intros Hok. destruct (parseLogEvent_frame data Hok) as (ev & Hev & Hx & _).
  exists ev. split; [exact Hev |]. split; [exact Hx |]. exact (Hx "fingerprint").
Qed.

(** The user identifier of the event is the value of the first "user_id"
    field that is not empty (an empty one does not block a later one), and
    [Extra] holds the value of the last "user_id" field. *)
Theorem User_ID_is_first_nonempty_user_id (data : string) :
  ObjectEach_error data = None ->
  exists ev, parseLogEvent data = Done (Some ev, true) /\
    sentry.ID (sentry.User_ ev) = firstNonEmpty (valuesOf "user_id" (ObjectEach_pairs data)) /\
    sentry.Extra ev !! "user_id" = last (valuesOf "user_id" (ObjectEach_pairs data)).
Proof.
  intros Hok. destruct (parseLogEvent_frame data Hok) as (ev & Hev & Hx & Hid & _).
  exists ev. split; [exact Hev |]. split; [exact Hid |]. exact (Hx "user_id").
Qed.

(** An explicit fingerprint that is the empty string, like one that
    [GetString] does not find, leaves the accumulated fingerprint: the
    values of the message and error fields in document order. *)
Theorem empty_fingerprint_does_not_override (data : string) :
  ObjectEach_error data = None ->
  snd (GetString data "fingerprint") <> None \/ fst (GetString data "fingerprint") = "" ->
  exists ev, parseLogEvent data = Done (Some ev, true) /\
    sentry.Fingerprint ev = fingerprintValues (ObjectEach_pairs data).
Proof.
  intros Hok Hfp. destruct (parseLogEvent_wellformed data Hok) as (ev & Hev & Hf & _).
  exists ev. split; [exact Hev |]. rewrite Hf. unfold fingerprint_of.
  destruct (GetString data "fingerprint") as [fingerprint [e |]]; [reflexivity |].
  cbn [fst snd] in Hfp. destruct Hfp as [Hfail | ->]; [now destruct Hfail | reflexivity].
Qed.

(** A record without an error field gives an event without exceptions, and
    a record without a message field gives an event whose message is empty
    and whose exceptions, one per error field, have the empty type. *)
Theorem event_without_error_or_message_field (data : string) :
  ObjectEach_error data = None ->
  exists ev, parseLogEvent data = Done (Some ev, true) /\
    (errorValues (ObjectEach_pairs data) = [] -> sentry.Exception_ ev = []) /\
    (messageValues (ObjectEach_pairs data) = [] ->
     sentry.Message ev = "" /\
     map sentry.Type_ (sentry.Exception_ ev)
     = map (fun _ => "") (errorValues (ObjectEach_pairs data))).
Proof.
  intros Hok.
  destruct (parseLogEvent_wellformed data Hok) as (ev & Hev & _ & Hmsg & Hvals & Htypes & _).
  exists ev. split; [exact Hev |]. split.
  - intros Hnone. rewrite Hnone in Hvals. now destruct (sentry.Exception_ ev).
  - intros Hnone. unfold finalMessage in Hmsg, Htypes. rewrite Hnone in Hmsg, Htypes.
    cbn [List.last] in Hmsg, Htypes. split; [exact Hmsg |].
    rewrite <- Hvals, map_map. apply map_ext_Forall. exact Htypes.
Qed.

End extractor_properties.

(** ** More on the level filter, the sink and the constructor *)


Section sink_properties.
Context `{Packages}.

(** On a record whose level parses, [Write] does what [WriteLevel] does at
    the parsed level. *)
Theorem Write_is_WriteLevel_at_parsed_level (w : Writer) (data : string)
    (hub : list HubCall) (lvl : zerolog.Level) :
  parseLogLevel data = (lvl, None) ->
  Write w data hub = WriteLevel w lvl data hub.
Proof.
  intros Hlvl. unfold Write, WriteLevel. rewrite Hlvl.
  now destruct (bool_decide (lvl ∈ levels w)).
Qed.


(** The event [Write] submits for an admitted, well-formed record carries
    the mapped level, the time of [now()], the logger name "zerolog" and
    the record's final message. *)
Theorem Write_submits_event_of_record (w : Writer) (data : string)
    (hub : list HubCall) (lvl : zerolog.Level) :
  parseLogLevel data = (lvl, None) -> lvl ∈ levels w ->
  ObjectEach_error data = None ->
  exists ev,
    Write w data hub
    = (Done (Z.of_nat (String.length data), None), hub ++ submission w ev) /\
    sentry.Level_ ev = levelsMapping_at lvl /\
    sentry.Timestamp ev = now /\
    sentry.Logger ev = "zerolog" /\
    sentry.Message ev = finalMessage (ObjectEach_pairs data).
Proof.
  intros Hlvl Hin Hok.
  destruct (Write_admitted w data hub lvl Hlvl Hin Hok) as (ev & Hev & Hwrite).
  destruct (parseLogEvent_wellformed data Hok) as (ev1 & Hev1 & _ & Hmsg & _).
  destruct (parseLogEvent_frame data Hok) as (ev2 & Hev2 & _ & _ & Ht & Hl).
  rewrite Hev in Hev1, Hev2. inversion Hev1; subst ev1. inversion Hev2; subst ev2.
  exists (set_Level (levelsMapping_at lvl) ev). now split.
Qed.

(** [New] returns no writer and the error of [sentry.Init] when it fails.
    When it succeeds the options were applied in order: an option
    [WithLevels] that comes last replaces the levels, the defaults among
    them, and the writer admits exactly the levels it lists. *)
Theorem New_levels_of_last_WithLevels (dsn : string) (opts : list WriterOption)
    (lvls : list zerolog.Level) :
  (forall e, sentry_Init dsn = Some e ->
             New dsn (opts ++ [WithLevels lvls]) = (None, Some e)) /\
  (sentry_Init dsn = None ->
   exists w, New dsn (opts ++ [WithLevels lvls]) = (Some w, None) /\
     forall lvl, lvl ∈ levels w <-> lvl ∈ lvls).
Proof.
  unfold New. split.
  - intros e He. now rewrite He.
  - intros Hok. rewrite Hok. eexists. split; [reflexivity |].
    intros lvl. rewrite fold_left_app. cbn [fold_left WithLevels levels cfg_levels].
    apply elem_of_list_to_set.
Qed.

(** Without options the writer admits the error, fatal and panic levels
    and no other, and flushes for three seconds. *)
Theorem New_default_levels (dsn : string) :
  sentry_Init dsn = None ->
  exists w, New dsn [] = (Some w, None) /\
    (forall lvl, lvl ∈ levels w <->
       lvl = zerolog.ErrorLevel \/ lvl = zerolog.FatalLevel \/ lvl = zerolog.PanicLevel) /\
    flushTimeout w = 3 * second.
Proof.
  intros Hok. unfold New. rewrite Hok. eexists. split; [reflexivity |].
  split; [| reflexivity].
  intros lvl. cbn [fold_left levels cfg_levels newDefaultConfig].
  rewrite elem_of_list_to_set, !elem_of_cons, elem_of_nil. tauto.
Qed.

(** Whatever the record, a call of [Write] leaves the earlier hub calls as
    they are and adds nothing, or one capture, or one capture followed by
    one flush: at most one event per call, and no flush without a capture. *)
Theorem Write_submits_at_most_one_event (w : Writer) (data : string)
    (hub : list HubCall) :
  exists calls, snd (Write w data hub) = hub ++ calls /\
    (calls = [] \/ exists ev, calls = submission w ev).
Proof.
  destruct (parseLogLevel data) as [lvl err] eqn:Hlvl.
  assert (Hnone : Write w data hub = (Done (Z.of_nat (String.length data), None), hub) ->
                  exists calls, snd (Write w data hub) = hub ++ calls /\
                    (calls = [] \/ exists ev, calls = submission w ev)).
  { intros ->. exists []. rewrite app_nil_r. split; [reflexivity | now left]. }
  destruct err as [e |].
  { apply Hnone, Write_not_admitted. left. now rewrite Hlvl. }
  destruct (decide (lvl ∈ levels w)) as [Hin | Hout].
  - destruct (ObjectEach_error data) as [e |] eqn:Herr.
    + rewrite (Write_admitted_malformed w data e hub lvl Hlvl Hin Herr).
      exists []. rewrite app_nil_r. split; [reflexivity | now left].
    + destruct (Write_admitted w data hub lvl Hlvl Hin Herr) as (ev & _ & Hw).
      rewrite Hw. eexists. split; [reflexivity |]. right. eexists. reflexivity.
  - apply Hnone, Write_not_admitted. right. now rewrite Hlvl.
Qed.

End sink_properties.

(** ** The time of a record *)

Section time.
Variable P : Packages.
Variable t : Time.

Lemma eachField_stamp (s : locals) (key value : string) :
  @eachField (at_time P t) (stamp t s) key value
  = match @eachField P s key value with
    | Done (s', e) => Done (stamp t s', e)
    | Panicked p => Panicked p
    end.
Proof.
  unfold eachField.
  change (@newStacktrace (at_time P t)) with (@newStacktrace P).
  destruct (String.eqb key zerolog.MessageFieldName); [reflexivity |].
  destruct (String.eqb key zerolog.ErrorFieldName).
  { destruct (@newStacktrace P); reflexivity. }
  destruct (String.eqb key zerolog.LevelFieldName
            || String.eqb key zerolog.TimestampFieldName); [reflexivity |].
  destruct (String.eqb key "user_id"); [| reflexivity].
  cbn [stamp event set_Timestamp sentry.User_ sentry.ID].
  destruct (String.eqb (sentry.ID (sentry.User_ (event s))) ""); reflexivity.
Qed.

Lemma ObjectEach_from_stamp (pairs : list (string * string)) (final : error) (s : locals) :
  ObjectEach_from pairs final (@eachField (at_time P t)) (stamp t s)
  = match ObjectEach_from pairs final (@eachField P) s with
    | Done (s', e) => Done (stamp t s', e)
    | Panicked p => Panicked p
    end.
Proof.
  revert s. induction pairs as [| [key value] pairs IH]; intros s; [reflexivity |].
  cbn [ObjectEach_from]. rewrite eachField_stamp.
  destruct (@eachField P s key value) as [[s1 [e |]] | p]; cbn [mbind run_bind];
    [reflexivity | apply IH | reflexivity].
Qed.

Lemma append_exceptions_stamp (msg : string) (excs : list sentry.Exception)
    (ev : sentry.Event) :
  fold_left (fun e exc => set_Exception (sentry.Exception_ e ++ [set_Type msg exc]) e)
            excs (set_Timestamp t ev)
  = set_Timestamp t
      (fold_left (fun e exc => set_Exception (sentry.Exception_ e ++ [set_Type msg exc]) e)
                 excs ev).
Proof.
  revert ev. induction excs as [| exc excs IH]; intros ev; [reflexivity |].
  cbn [fold_left]. rewrite <- IH. reflexivity.
Qed.

(** The event of a record at another time: the same event with that time. *)
Lemma parseLogEvent_at_time (data : string) :
  @parseLogEvent (at_time P t) data
  = match @parseLogEvent P data with
    | Done (Some ev, ok) => Done (Some (set_Timestamp t ev), ok)
    | r => r
    end.
Proof.
  unfold parseLogEvent, ObjectEach.
  change (@ObjectEach_pairs (at_time P t)) with (@ObjectEach_pairs P).
  change (@ObjectEach_error (at_time P t)) with (@ObjectEach_error P).
  change (@GetString (at_time P t)) with (@GetString P).
  match goal with
  | |- context [ObjectEach_from _ _ (@eachField P) ?s0] =>
      change (ObjectEach_from (ObjectEach_pairs data) (ObjectEach_error data)
                (@eachField (at_time P t)) _)
        with (ObjectEach_from (ObjectEach_pairs data) (ObjectEach_error data)
                (@eachField (at_time P t)) (stamp t s0));
      rewrite (ObjectEach_from_stamp _ _ s0);
      destruct (ObjectEach_from (ObjectEach_pairs data) (ObjectEach_error data)
                  (@eachField P) s0) as [[s [e |]] | p]
  end; cbn [mbind run_bind mret run_ret]; [reflexivity | | reflexivity].
  cbn [stamp event message exceptions].
  do 3 f_equal.
  rewrite <- append_exceptions_stamp. f_equal.
  destruct (GetString data "fingerprint") as [fingerprint [e |]]; [reflexivity |].
  destruct (negb (String.eqb fingerprint "")); reflexivity.
Qed.

(** The answer of [now()] reaches the timestamp of the submitted event and,
    beyond it, only what the hub makes of that event. Where the level the
    hub leaves does not depend on the timestamp, [Write] at another time
    returns the same result and makes the same hub calls, with that time in
    the event: two writes of one record differ in the timestamp of their
    events only. *)
Theorem Write_depends_on_time_through_Timestamp_only (w : Writer) (data : string) :
  (forall ev, sentry.Level_ (@CaptureEvent_leaves P (set_Timestamp t ev))
              = sentry.Level_ (@CaptureEvent_leaves P ev)) ->
  @Write (at_time P t) w data []
  = (fst (@Write P w data []), map (restamp t) (snd (@Write P w data []))).
Proof.
  intros Hhub. unfold Write.
  change (@parseLogLevel (at_time P t) data) with (@parseLogLevel P data).
  destruct (@parseLogLevel P data) as [lvl [e |]]; [reflexivity |].
  destruct (bool_decide (lvl ∈ levels w)); [| reflexivity].
  cbn [negb]. unfold lift, hub_CaptureEvent, hub_Flush, mbind, Go_bind.
  rewrite parseLogEvent_at_time.
  destruct (@parseLogEvent P data) as [[[ev |] ok] | p]; cbn [deref];
    [| reflexivity | reflexivity].
  destruct ok; [| reflexivity].
  change (@CaptureEvent_leaves (at_time P t)) with (@CaptureEvent_leaves P).
  change (set_Level (levelsMapping_at lvl) (set_Timestamp t ev))
    with (set_Timestamp t (set_Level (levelsMapping_at lvl) ev)).
  rewrite Hhub.
  destruct (String.eqb
              (sentry.Level_ (@CaptureEvent_leaves P (set_Level (levelsMapping_at lvl) ev)))
              sentry.LevelFatal); reflexivity.
Qed.

End time.

(** ** The further properties on the sample records *)

Section more_samples.
#[local] Existing Instance sample.packages.

(** The stack of the samples ends at [handle], the caller of the logger. *)
Lemma newStacktrace_ends_at_logger_call_sample :
  stacktrace.newStacktrace_of sample.stack
  = Done {| sentry.Frames := [ sample.frame "main" "main" "main.go" 12;
                               sample.frame "handle" "main" "main.go" 40 ] |}.
Proof.
  apply (newStacktrace_ends_at_logger_call
           [sample.frame "main" "main" "main.go" 12]
           [sample.frame "(*Event).Msg" stacktrace.loggerModule "event.go" 108;
            sample.frame "(*Event).msg" stacktrace.loggerModule "event.go" 158]
           [sample.frame "(*Writer).Write" go_mod_module "writer.go" 48;
            sample.frame "(*Writer).parseLogEvent" go_mod_module "writer.go" 114;
            sample.frame "newStacktrace" go_mod_module "writer.go" 161]
           (sample.frame "handle" "main" "main.go" 40)).
  - discriminate.
  - repeat constructor.
  - vm_compute. discriminate.
  - repeat constructor; vm_compute; discriminate.
Defined.

(** With the logger's frames at the root the stack is returned as it is. *)
Lemma newStacktrace_without_caller_below_logger_sample :
  stacktrace.newStacktrace_of {| sentry.Frames := sample.logger_at_root |}
  = Done {| sentry.Frames := sample.logger_at_root |}.
Proof.
  destruct (newStacktrace_without_caller_below_logger
              (take 2 sample.logger_at_root) (drop 2 sample.logger_at_root))
    as (t & _ & Hnew & Hall).
  - repeat constructor.
  - repeat constructor. vm_compute. discriminate.
  - rewrite (Hall (sample.frame "(*Writer).Write" go_mod_module "writer.go" 48)) in Hnew;
      [exact Hnew | reflexivity | vm_compute; discriminate].
Defined.

Lemma newStacktrace_keeps_root_sample :
  exists t1 n,
    stacktrace.step1 (sentry.Frames sample.stack) = Done t1 /\
    (1 <= n <= Z.to_nat (t1 + 1))%nat /\
    stacktrace.newStacktrace_of sample.stack
    = Done {| sentry.Frames := take n (sentry.Frames sample.stack) |} /\
    take n (sentry.Frames sample.stack) !! 0%nat
    = Some (sample.frame "main" "main" "main.go" 12).
Proof.
  exact (newStacktrace_keeps_root sample.stack
           (sample.frame "main" "main" "main.go" 12) eq_refl).
Defined.

(** The record with repeated "user_id" and "service" fields. *)
Lemma Extra_holds_last_value_of_other_keys_sample :
  exists ev, parseLogEvent sample.tagged = Done (Some ev, true) /\
    sentry.Extra ev !! "service" = Some "b" /\
    sentry.Extra ev !! "message" = None /\
    sentry.Extra ev !! "level" = None /\
    sentry.Extra ev !! "host" = None.
Proof.
  assert (Hok : ObjectEach_error sample.tagged = None) by reflexivity.
  destruct (Extra_holds_last_value_of_other_keys sample.tagged Hok)
    as (ev & Hev & Hx & _).
  exists ev. split; [exact Hev |].
  split; [exact (Hx "service") |]. split; [exact (Hx "message") |].
  split; [exact (Hx "level") | exact (Hx "host")].
Defined.

Lemma User_ID_is_first_nonempty_user_id_sample :
  exists ev, parseLogEvent sample.tagged = Done (Some ev, true) /\
    sentry.ID (sentry.User_ ev) = "u1" /\
    sentry.Extra ev !! "user_id" = Some "u2".
Proof.
  exact (User_ID_is_first_nonempty_user_id sample.tagged eq_refl).
Defined.

Lemma empty_fingerprint_does_not_override_sample :
  exists ev, parseLogEvent sample.empty_fingerprint = Done (Some ev, true) /\
    sentry.Fingerprint ev = ["M"; "E1"].
Proof.
  assert (Hok : ObjectEach_error sample.empty_fingerprint = None) by reflexivity.
  assert (Hfp : snd (GetString sample.empty_fingerprint "fingerprint") <> None \/
                fst (GetString sample.empty_fingerprint "fingerprint") = "")
    by (right; reflexivity).
  exact (empty_fingerprint_does_not_override sample.empty_fingerprint Hok Hfp).
Defined.

Lemma event_without_error_or_message_field_sample :
  exists ev, parseLogEvent sample.plain = Done (Some ev, true) /\
    sentry.Exception_ ev = [] /\ sentry.Message ev = "".
Proof.
  assert (Hok : ObjectEach_error sample.plain = None) by reflexivity.
  destruct (event_without_error_or_message_field sample.plain Hok)
    as (ev & Hev & Hnoerr & Hnomsg).
  exists ev. split; [exact Hev |].
  split; [exact (Hnoerr eq_refl) | exact (proj1 (Hnomsg eq_refl))].
Defined.

Lemma Write_is_WriteLevel_at_parsed_level_sample :
  Write sample.default sample.fatal_record []
  = WriteLevel sample.default zerolog.FatalLevel sample.fatal_record [].
Proof.
  apply Write_is_WriteLevel_at_parsed_level. reflexivity.
Defined.


Lemma Write_submits_event_of_record_sample :
  exists ev,
    Write sample.default sample.message_first []
    = (Done (Z.of_nat (String.length sample.message_first), None),
       [] ++ submission sample.default ev) /\
    sentry.Level_ ev = "error" /\
    sentry.Timestamp ev = 1700000000 /\
    sentry.Logger ev = "zerolog" /\
    sentry.Message ev = "M".
Proof.
  assert (Hlvl : parseLogLevel sample.message_first = (zerolog.ErrorLevel, None))
    by reflexivity.
  assert (Hin : zerolog.ErrorLevel ∈ levels sample.default)
    by (apply in_levels; vm_compute; reflexivity).
  assert (Hok : ObjectEach_error sample.message_first = None) by reflexivity.
  exact (Write_submits_event_of_record sample.default sample.message_first []
           zerolog.ErrorLevel Hlvl Hin Hok).
Defined.

(** After [WithLevels(debug)] the error level is no longer admitted. *)
Lemma New_levels_of_last_WithLevels_sample :
  exists w,
    New sample.dsn [WithLevels [zerolog.TraceLevel]; WithLevels [zerolog.DebugLevel]]
    = (Some w, None) /\
    (zerolog.DebugLevel ∈ levels w) /\
    (zerolog.ErrorLevel ∉ levels w) /\
    (zerolog.TraceLevel ∉ levels w).
Proof.
  destruct (New_levels_of_last_WithLevels sample.dsn
              [WithLevels [zerolog.TraceLevel]] [zerolog.DebugLevel]) as [_ Hok].
  destruct (Hok eq_refl) as (w & Hw & Hlevels).
  exists w. split; [exact Hw |].
  split; [apply Hlevels; apply list_elem_of_singleton; reflexivity |].
  split; intros Hin; apply Hlevels, list_elem_of_singleton in Hin; discriminate.
Defined.

Lemma New_default_levels_sample :
  exists w, New sample.dsn [] = (Some w, None) /\
    (forall lvl, lvl ∈ levels w <->
       lvl = zerolog.ErrorLevel \/ lvl = zerolog.FatalLevel \/ lvl = zerolog.PanicLevel) /\
    flushTimeout w = 3 * second.
Proof.
  exact (New_default_levels sample.dsn eq_refl).
Defined.

(** The hub of the client's defaults does not look at the timestamp: the
    fatal record an hour later. *)
Lemma Write_depends_on_time_through_Timestamp_only_sample :
  @Write (at_time sample.packages 1700003600) sample.default sample.fatal_record []
  = (fst (Write sample.default sample.fatal_record []),
     map (restamp 1700003600) (snd (Write sample.default sample.fatal_record []))).
Proof.
  apply Write_depends_on_time_through_Timestamp_only.
  intros ev.
  change (@CaptureEvent_leaves sample.packages) with sample.client_defaults.
  unfold sample.client_defaults. cbn [set_Timestamp sentry.Level_].
  destruct (String.eqb (sentry.Level_ ev) ""); reflexivity.
Defined.

End more_samples.
